(* ===== verification/_CoqProject ===== *)
-Q . S2P
Prelude.v
PyStr.v
PyDict.v
Registry.v
Tools.v
Node.v
Engine.v
Semantics.v
Trace.v
Concurrency.v
Aliasing.v
Api.v
ApiConc.v
