(* ===== verification/Prelude.v ===== *)
(** * Verification of the Graph-Workspace workflow engine

    The program ([src/]) is a small workflow engine behind a FastAPI
    service.  A graph is a start node name and a table of async node
    callables; running it walks the graph from the start node, each node
    mutating a shared state dict, logging through a closure over the run
    record, and naming the next node, until no next node is given or the
    named node is missing.  The parts and how they interact:

    - [src/engine.py]: [NodeResult], [GraphDefinition], [GraphRun] and
      [WorkflowEngine] (graph table, run table, tool registry, and
      [run_graph] with its [while current:] loop);
    - [src/registry.py]: [ToolRegistry], the tool facade handed to every
      node, and the two default tools [_detect_smells] and
      [_estimate_length_complexity];
    - [src/main.py] and [src/models.py]: the HTTP handlers (create a
      graph from a named builder, run it, read a run's state) and the
      request/response records.

    ** Files

    - [Prelude]: this header, the [engine_scope] with the [+:+] string
      concatenation of f-strings, Python truthiness of [str] and
      [Optional[str]], the [engine] hint databases, list and string
      lemmas.
    - [PyStr]: Python [str] semantics the code relies on ([strip],
      [splitlines], [in], [startswith], [repr] on Latin-1 code points),
      Python exceptions [exc] with their [str()] ([exc_str]), and
      [result], the return-or-raise of a call.
    - [PyDict]: Python's insertion-ordered [dict] with string keys, an
      association list with stdpp's lookup, insert and empty notations;
      it refines [gmap] ([pd_to_gmap]) and has Python's order-blind [==]
      as a setoid ([≡] with [Proper] lookup and insert).  A graph's
      [nodes] and the registry's [_tools] are [pydict]s, so
      [list(graph.nodes.keys())] is in the builder's order.
    - [Registry]: the [ToolFacade] interface (strict and non-strict
      lookup, registration, with its laws [ToolFacadeLaws]); Module
      [ToolRegistry] implements it ([ToolRegistry_laws]).  The engine and
      the nodes are verified against the interface only.
    - [Tools]: [_detect_smells], [_estimate_length_complexity] and
      [register_default_tools].
    - [Node]: the node contract.  A node is a [NodeCallable], a finite
      program over the effects the engine hands it (read and write the
      state dict, log a line, look a tool up strictly or not, register a
      tool, return a [NodeResult] or raise), and [exec_node] runs it
      against a [NodeEnv] (state, log, registry).
    - [Engine]: the records of [engine.py] and every method of
      [WorkflowEngine]; [run_loop] is the [while current:] loop with one
      unit of fuel per iteration, [run_graph] the whole method, returning
      [None] while the run is still in flight.  The run record stored in
      [self.runs[run_id]] is the object the loop mutates; the model writes
      the final record back under [run_id].  [engine_step] is the engine
      as a state machine (registrations and runs under fresh uuids).
    - [Semantics]: one iteration of the loop whose node returns
      ([iter_step]), with the lines it logs ([executing_line],
      [message_lines]).
    - [Trace]: a whole run seen from outside, as the sequence of nodes
      it visits ([visits]: the first at the start node, each next one
      at the previous result's [next_node], with the state dict and the
      registry threaded through), and its log as the blocks of those
      visits ([visit_lines], [trace_lines]) followed by how the loop
      ended ([exit_lines], [loop_raises]).
    - [Concurrency]: several runs in flight in one event loop.  A run is
      a coroutine with the graph it fetched at line 75 and a phase (at
      the loop test, inside an awaited node with the rest of the node's
      program, returned, raised); [tstep] is one atomic step of it (the
      loop test up to the handler call, or one effect of the node), and
      it reads and writes the run's record in the engine's run table, so
      [get_run] sees a run in flight.  [cstep] interleaves these steps
      with new runs (fresh uuid) and graph registrations; [conc_run] runs
      a concrete schedule.  Every node effect is a possible suspension
      point, so the schedules are a superset of asyncio's.  A run's state
      is a value here (see "Not modelled").
    - [Aliasing]: [dict(initial_state or {})] (line 71) over a heap of
      dict objects whose values may be references to other dicts: the
      top level of the run's state is a new object, nested dicts are
      shared with the caller ([initial_state_shares_nested]).
    - [Api]: the handlers of [main.py] as functions over the engine (the
      module-global [tool_registry] is the engine's own registry object)
      and the records of [models.py].
    - [ApiConc]: the handlers in one event loop: [create_graph], the
      startup hook, the start of [POST /graph/run] ([run_endpoint_start])
      and the steps of runs in flight form [app_step], each a [cstep] of
      [Concurrency]; [run_endpoint_finish] is the rest of the [POST]
      handler once its run has finished.

    ** What is proved

    - Outcomes of [run_graph] (Engine): a returning run is completed,
      cleared and stored (C1); an unregistered id raises [KeyError] and
      creates nothing (C2); the corner cases of a missing start node (two
      log lines, C7) and an empty start node (the loop is never entered,
      C9); a start node that looks up a tool nobody registered makes the
      run fail with the registry's [KeyError] as its last line, proved
      against the facade's laws (C8).
    - Termination and its absence (Engine): when every node that
      returns names no node or a node of smaller rank, [run_graph]
      returns or raises within [rank start + 2] iterations (C3); a
      self-looping start node (C10), and more generally a start node in
      a set of nodes the loop cannot leave (C11), keep [run_graph] from
      returning for every fuel, with the record still "running": there
      is no iteration cap.
    - Log ordering: an iteration appends "Executing node X", then
      exactly what X logged, then X's non-empty message (C4, C14).
    - Whole-run logs (Trace): the log of a completed run is exactly the
      blocks of the nodes it visited from the start node, then the
      not-found line if it ended on a missing node, then "Run
      completed." (C5); the log of a failed run is the blocks of the
      nodes that returned, then the raising node's line and what it
      logged, then "Run failed: " and [str()] of that node's exception,
      with [current_node] still naming it (C6).  Conversely every trace
      that ends the loop, or that ends in a node that raises, is what
      [run_graph] computes with one unit of fuel per visit and one more
      ([run_graph_trace_complete], [run_graph_failed_trace_complete]),
      and the trace of a completed run is unique ([visits_exits_det]).
    - Invariants: every reachable engine has a well-formed run table
      (C12), a run touches only its own entry (C13), read-only graphs
      keep the state (C15) and graphs that register no tool keep the
      registry (C16).
    - HTTP layer (Api): run then state lookup agree (C17, C18), 404/400
      paths change nothing (C19, C21), graph creation answering with the
      node names in the builder's order (C20), the startup hook (C22).
    - Registry and tools: the exact failure line of a missing tool (C23),
      falsy registered values (C24), registration and lookup round trip
      with [list_tools()] in registration order (C25), the linear range
      of the complexity estimate (C28), the shape and conditions of the
      smell report (C29-C31).
    - Aliasing: the run's state shares the caller's nested dicts, so a
      node's nested write is seen by the caller (C26), where spec 3 asks
      for a deep copy.
    - HTTP layer under interleaving (ApiConc): a [GET /graph/state]
      while [POST /graph/run] is in flight answers "running" with logs
      that the [POST]'s answer extends, and after it the [GET] agrees
      with the [POST], with no current node (C27).
    - Concurrency: under every interleaving terminal records are never
      written again (C32), and what [get_run] shows of a run in flight is
      a prefix of what it shows later (C33).

    ** Bounds and fuel

    The only unbounded recursion of the program is the [while current:]
    loop; the model bounds it by a fuel counting iterations.  A run of
    [n] node invocations that then halts needs [n + 1] units and gets
    the same result from any larger fuel ([run_graph_trace_complete],
    [run_graph_failed_trace_complete]); C3 bounds [n] by the rank of the
    start node; C10 and C11 show that no fuel suffices for a run that
    never halts, and that [run_graph] then answers [None] (still in
    flight) rather than a result, so the fuel hides no behaviour.
    The coroutine model of [Concurrency] has no fuel: its steps are a
    relation.
    Integers of the tools are [Z] (Python ints are unbounded); the
    comparison with [len(lines) * 0.5] is exact in floating point and is
    modelled as [len(lines) < 2 * count].

    ** Not modelled

    uuid4 is an argument, and its freshness a premise of a new run (in
    [engine_step] and [cstep]).  A call of [run_graph] on an unregistered
    graph raises before any effect, so [cstep] has no step for it.  The
    interleaving model lets a node suspend at each effect; a node that
    awaits something else (a timer, I/O) has no further effect on the
    engine and is covered by the same steps.  Nodes are finite
    programs: a node that itself never returns is not modelled.  In
    [Engine] and [Node] the state dict is a value: the aliasing of nested
    values that the shallow copy [dict(initial_state or {})] leaves is
    shown in [Aliasing] on its own, and is not threaded through the node
    model: nodes are programs over an abstract value type [V], the
    engine itself never reads a value of the state (it only hands the
    dict to the nodes and stores it), and line 71 is the only line of
    the engine that creates or copies a dict, which [Aliasing] models
    over the heap.  In particular two runs in flight started from one
    [initial_state] share its nested dicts, so a node of one run can
    change what a node of the other reads; the interleaving model of
    [Concurrency] does not express this, and no theorem here claims that
    interleaved runs compute what they would alone.
    [except Exception] (line 99) is modelled as catching every raise of
    a node: a [BaseException] that is not an [Exception] (such as
    [asyncio.CancelledError]) would leave the record "running" in the
    code.  A node's strict tool lookup raises out of the node: a node
    that catches the [KeyError] itself is written with [try_get].  Node
    values in a graph are never [None] in the model, so the test
    [handler is None] (line 83) is the missing-key test; a key bound to
    [None] would take the same branch in the code.
    [ToolRegistry.list_tools] returns the table where the code returns
    the copy [dict(self._tools)]: equal as values, but a caller that
    mutates the copy does not change the registry.
    [workflows/code_review.py]
    is not among the sources: the builder is a parameter.  FastAPI and
    pydantic (routing, validation, serialisation) are library code.
    Strings are Latin-1 code points.  The graph and run tables are
    [gmap]s: the code never lists them, so their key order is not
    observable.

    The request models of [models.py] are records of their fields: the
    defaults ([workflow = "code_review"], [initial_state = {}]) are
    filled in by pydantic's parsing, which is library code, and the
    handlers receive the filled-in record.

    ** Plan for later work

    A node model over [Aliasing]'s heap, threaded through the
    interleaving of [Concurrency], would state which runs in flight
    interfere through shared nested dicts. *)

From stdpp Require Import base gmap strings list relations.
From Stdlib Require Import String Ascii ZArith Lia.

(** ** Notation

    String concatenation of Python f-strings.  [++] stays list append. *)

Declare Scope engine_scope.
Delimit Scope engine_scope with engine.
Infix "+:+" := String.append (at level 60, right associativity) : engine_scope.
Open Scope engine_scope.

Create HintDb engine.
Create Rewrite HintDb engine_rw.

(** ** Python truthiness

    [while current:] and [if result.message:] test a [str] or an
    [Optional[str]] for truthiness: [None] and the empty string are
    false, every other string is true. *)

Definition py_truthy_str (s : string) : bool := negb (String.eqb s "").

Definition py_truthy_opt (o : option string) : bool :=
  match o with
  | Some s => py_truthy_str s
  | None => false
  end.

Lemma py_truthy_str_true s : py_truthy_str s = true <-> s <> ""%string.
Proof.
  unfold py_truthy_str. destruct (String.eqb_spec s ""); subst; simpl;
    split; congruence.
Qed.

Lemma py_truthy_opt_true o :
  py_truthy_opt o = true <-> exists s, o = Some s /\ s <> ""%string.
Proof.
  destruct o as [s|]; simpl.
  - rewrite py_truthy_str_true. split; [eauto | intros (? & [= ->] & ?); done].
  - split; [discriminate | intros (? & ? & ?); discriminate].
Qed.

Lemma py_truthy_opt_false o :
  py_truthy_opt o = false <-> o = None \/ o = Some ""%string.
Proof.
  destruct o as [s|]; simpl; [|intuition].
  unfold py_truthy_str. destruct (String.eqb_spec s ""); subst; simpl;
    split; intros H; try (by right); try done.
  destruct H as [H|H]; congruence.
Qed.

(** ** Lists used as Python append-only logs *)

Lemma app_singleton_assoc {A} (l1 l2 : list A) (x : A) :
  (l1 ++ l2) ++ [x] = l1 ++ (l2 ++ [x]).
Proof. by rewrite <- app_assoc. Qed.

Lemma prefix_app_r_singleton {A} (l1 l2 : list A) (x : A) :
  l1 `prefix_of` l2 -> l1 `prefix_of` l2 ++ [x].
Proof. intros [k ->]. exists (k ++ [x]). by rewrite app_assoc. Qed.

#[export] Hint Resolve prefix_app_r_singleton : engine.

(** [case_bool] splits on a boolean test of the code, keeping its equation. *)
Ltac case_bool b := let E := fresh "E" in destruct b eqn:E.

(** ** String concatenation *)

Lemma append_assoc_str (a b c : string) : (a +:+ b) +:+ c = a +:+ (b +:+ c).
Proof. induction a as [|x a IH]; [reflexivity|exact (f_equal (String x) IH)]. Qed.

Lemma append_empty_r (a : string) : a +:+ "" = a.
Proof. induction a as [|x a IH]; [reflexivity|exact (f_equal (String x) IH)]. Qed.

Lemma append_String_l (c : ascii) (a b : string) : String c a +:+ b = String c (a +:+ b).
Proof. done. Qed.

#[export] Hint Rewrite append_assoc_str append_empty_r : engine_rw.
