(* ===== verification/PyStr.v ===== *)
(** * Python strings and exceptions

    The fragment of Python's [str] semantics that the sources use, on
    Rocq strings read as Latin-1 code points (0..255):
    [str.isspace], [str.strip], [str.splitlines], [in] on strings,
    [str.startswith], [len] and [repr]; and Python exceptions with their
    [str()] (the text an f-string such as [f"Run failed: {exc}"] shows),
    together with [result], the value-or-exception of a Python call. *)

From stdpp Require Import base gmap strings list.
From Stdlib Require Import String Ascii ZArith Lia.
From S2P Require Import Prelude.

Open Scope engine_scope.

(** ** Exceptions and results *)

(** The exceptions raised by the sources: [KeyError] (graph or tool not
    registered) and any other exception a node raises, by class name and
    message. *)
Inductive exc : Type :=
| KeyError (arg : string)
| Exception (cls : string) (msg : string).

(** Value of a Python call: a return value or a raised exception. *)
Inductive result (A : Type) : Type :=
| Ok (a : A)
| Err (e : exc).
Arguments Ok {A} a.
Arguments Err {A} e.

(** ** Characters *)

Definition code (c : ascii) : nat := nat_of_ascii c.

Definition squote : ascii := "'"%char.
Definition dquote : ascii := "034"%char.
Definition backslash : ascii := "092"%char.

(** [str.isspace] on one code point: U+0009..U+000D, U+001C..U+0020,
    U+0085 and U+00A0. *)
Definition py_isspace (c : ascii) : bool :=
  let n := code c in
  ((9 <=? n) && (n <=? 13)) || ((28 <=? n) && (n <=? 32)) ||
  (n =? 133) || (n =? 160).

(** The line boundaries of [str.splitlines] below U+0100: [\n], [\r],
    [\v], [\f], U+001C, U+001D, U+001E and U+0085 ([\r\n] counts once). *)
Definition py_linebreak (c : ascii) : bool :=
  let n := code c in
  ((10 <=? n) && (n <=? 13)) || ((28 <=? n) && (n <=? 30)) || (n =? 133).

(** [str.isprintable] below U+0100: everything but the control
    characters U+0000..U+001F, U+007F..U+00A0 and the soft hyphen U+00AD. *)
Definition py_isprintable (c : ascii) : bool :=
  let n := code c in
  negb ((n <? 32) || ((127 <=? n) && (n <=? 160)) || (n =? 173)).

(** ** [str] operations *)

Fixpoint has_char (c : ascii) (s : string) : bool :=
  match s with
  | EmptyString => false
  | String d s' => Ascii.eqb c d || has_char c s'
  end.

Fixpoint lstrip (s : string) : string :=
  match s with
  | EmptyString => EmptyString
  | String c s' => if py_isspace c then lstrip s' else s
  end.

Fixpoint rstrip (s : string) : string :=
  match s with
  | EmptyString => EmptyString
  | String c s' =>
      let r := rstrip s' in
      if String.eqb r "" && py_isspace c then EmptyString else String c r
  end.

(** [s.strip()] *)
Definition strip (s : string) : string := rstrip (lstrip s).

(** [s.splitlines()]: [cur] is the line read so far.  A boundary ends the
    current line; the text after the last boundary is a line only when it
    is not empty, so ["a\n"] has one line and [""] none. *)
Fixpoint splitlines_go (cur : string) (s : string) : list string :=
  match s with
  | EmptyString => if String.eqb cur "" then [] else [cur]
  | String c s' =>
      if Ascii.eqb c "013"%char then
        match s' with
        | String d s'' =>
            if Ascii.eqb d "010"%char then cur :: splitlines_go "" s''
            else cur :: splitlines_go "" s'
        | EmptyString => [cur]
        end
      else if py_linebreak c then cur :: splitlines_go "" s'
      else splitlines_go (cur +:+ String c "") s'
  end.

Definition splitlines (s : string) : list string := splitlines_go "" s.

(** [needle in hay] *)
Fixpoint py_contains (needle hay : string) : bool :=
  String.prefix needle hay ||
  match hay with
  | EmptyString => false
  | String _ hay' => py_contains needle hay'
  end.

(** [s.startswith(p)] *)
Definition startswith (s p : string) : bool := String.prefix p s.

(** ** [repr] and [str()] of exceptions *)

Definition hex_digit (n : nat) : ascii :=
  if n <? 10 then ascii_of_nat (48 + n) else ascii_of_nat (87 + n).

(** One character inside the quotes of [repr]: the quote and the
    backslash are escaped, [\t], [\n], [\r] by name, other unprintable
    characters as [\xhh]. *)
Definition repr_char (q c : ascii) : string :=
  if Ascii.eqb c q || Ascii.eqb c backslash then String backslash (String c "")
  else if Ascii.eqb c "009"%char then "\t"
  else if Ascii.eqb c "010"%char then "\n"
  else if Ascii.eqb c "013"%char then "\r"
  else if py_isprintable c then String c ""
  else "\x" +:+ String (hex_digit (code c / 16)) (String (hex_digit (code c mod 16)) "").

Fixpoint repr_body (q : ascii) (s : string) : string :=
  match s with
  | EmptyString => EmptyString
  | String c s' => repr_char q c +:+ repr_body q s'
  end.

(** [repr(s)]: single quotes, unless the text has a single quote and no
    double quote. *)
Definition py_repr (s : string) : string :=
  let q := if has_char squote s && negb (has_char dquote s) then dquote else squote in
  String q (repr_body q s +:+ String q "").

(** [str(exc)]: a [KeyError] with one argument shows the [repr] of it. *)
Definition exc_str (e : exc) : string :=
  match e with
  | KeyError arg => py_repr arg
  | Exception _ msg => msg
  end.

(** ** Properties of the [str] operations *)

Fixpoint has_linebreak (s : string) : bool :=
  match s with
  | EmptyString => false
  | String c s' => py_linebreak c || has_linebreak s'
  end.

(** Every character is whitespace. *)
Fixpoint all_space (s : string) : bool :=
  match s with
  | EmptyString => true
  | String c s' => py_isspace c && all_space s'
  end.

(** Lines written each with a ["\n"] terminator. *)
Definition join_lines (ls : list string) : string :=
  fold_right (fun l acc => l +:+ String "010"%char acc) "" ls.

Lemma splitlines_go_app cur l rest :
  has_linebreak l = false -> splitlines_go cur (l +:+ rest) = splitlines_go (cur +:+ l) rest.
Proof.
  revert cur. induction l as [|c l IH]; intros cur Hl; simpl in *.
  - by rewrite append_empty_r.
  - apply orb_false_iff in Hl as [Hc Hl].
    assert (Hcr : Ascii.eqb c "013"%char = false).
    { destruct (Ascii.eqb_spec c "013"%char); subst; [done|done]. }
    rewrite Hcr, Hc, IH by done. by rewrite append_assoc_str.
Qed.

(** Round trip: [splitlines] recovers lines that hold no line boundary
    from their ["\n"]-terminated concatenation. *)
Lemma splitlines_join_lines ls :
  Forall (fun l => has_linebreak l = false) ls -> splitlines (join_lines ls) = ls.
Proof.
  unfold splitlines. induction 1 as [|l ls Hl Hls IH]; [done|]. simpl.
  rewrite splitlines_go_app by done. simpl. by rewrite IH.
Qed.

Lemma rstrip_empty s : rstrip s = "" <-> all_space s = true.
Proof.
  induction s as [|c s IH]; simpl; [done|].
  destruct (String.eqb_spec (rstrip s) "") as [E|E], (py_isspace c); simpl;
    split; intros H; try done; [by apply IH | by apply IH in H].
Qed.

(** [s.strip()] is falsy exactly for the blank strings. *)
Lemma strip_empty s : strip s = "" <-> all_space s = true.
Proof.
  unfold strip. rewrite rstrip_empty.
  induction s as [|c s IH]; simpl; [done|].
  destruct (py_isspace c) eqn:E; simpl; [done|]. by rewrite E.
Qed.

Lemma rstrip_idem s : rstrip (rstrip s) = rstrip s.
Proof.
  induction s as [|c s IH]; simpl; [done|].
  destruct (String.eqb (rstrip s) "" && py_isspace c) eqn:E; simpl; [done|].
  rewrite IH. by rewrite E.
Qed.

Lemma rstrip_lstrip s : lstrip (rstrip (lstrip s)) = rstrip (lstrip s).
Proof.
  induction s as [|c s IH]; simpl; [done|].
  destruct (py_isspace c) eqn:E; [done|]. simpl.
  destruct (String.eqb (rstrip s) "" && py_isspace c) eqn:E2; simpl; [done|]. by rewrite E.
Qed.

(** [strip] is idempotent. *)
Lemma strip_idem s : strip (strip s) = strip s.
Proof. unfold strip. by rewrite rstrip_lstrip, rstrip_idem. Qed.

(** Characters [repr] copies unchanged inside quotes [q]. *)
Definition repr_keeps (q : ascii) (s : string) : bool :=
  forallb (fun c => py_isprintable c && negb (Ascii.eqb c q) && negb (Ascii.eqb c backslash))
    (list_ascii_of_string s).

Lemma repr_body_app q a b : repr_body q (a +:+ b) = repr_body q a +:+ repr_body q b.
Proof.
  induction a as [|c a IH]; [done|]. simpl. rewrite IH. by rewrite append_assoc_str.
Qed.

Lemma repr_body_keeps q s : repr_keeps q s = true -> repr_body q s = s.
Proof.
  unfold repr_keeps. induction s as [|c s IH]; [done|]. simpl.
  intros [[[Hp Hq]%andb_prop Hb]%andb_prop Hs]%andb_prop.
  rewrite IH by done. unfold repr_char.
  apply negb_true_iff in Hq, Hb. rewrite Hq, Hb. simpl.
  destruct (Ascii.eqb_spec c "009"%char); [by subst|].
  destruct (Ascii.eqb_spec c "010"%char); [by subst|].
  destruct (Ascii.eqb_spec c "013"%char); [by subst|].
  by rewrite Hp.
Qed.

Lemma repr_keeps_no_char q s : repr_keeps q s = true -> has_char q s = false.
Proof.
  unfold repr_keeps. induction s as [|c s IH]; [done|]. simpl.
  intros [[[_ Hq]%andb_prop _]%andb_prop Hs]%andb_prop.
  apply negb_true_iff in Hq. rewrite Ascii.eqb_sym, Hq. by apply IH.
Qed.

Lemma has_char_app c a b : has_char c (a +:+ b) = has_char c a || has_char c b.
Proof. induction a as [|d a IH]; [done|]. simpl. rewrite IH. by rewrite orb_assoc. Qed.

Lemma list_ascii_of_append a b :
  list_ascii_of_string (a +:+ b) = list_ascii_of_string a ++ list_ascii_of_string b.
Proof. induction a as [|c a IH]; [done|]. simpl. by rewrite IH. Qed.
