(* ===== verification/PyDict.v ===== *)
(** * Python dicts with string keys

    A Python [dict] remembers the order in which its keys were first
    inserted: [d[k] = v] replaces the value of a key already there in
    place and appends a new key at the end, and [list(d.keys())] lists
    the keys in that order.  The code relies on this in
    [list(graph.nodes.keys())] ([src/main.py] line 44).  [pydict] is an
    association list in insertion order with stdpp's [!!], [<[_:=_]>] and
    [∅] notations for [d.get(k)], [d[k] = v] and [{}].

    [pd_to_gmap] forgets the order.  Lookup and insertion refine the
    corresponding [gmap] operations ([pd_to_gmap_lookup],
    [pd_to_gmap_insert]), so the engine's reasoning about which node
    runs is the finite-map reasoning of stdpp.  Python's [==] on dicts
    ignores order: [≡] is that equivalence, with the [Proper] instances
    that let lookup and insertion be rewritten under it, while [pd_keys]
    tells equivalent dicts apart. *)

From stdpp Require Import base gmap strings list.
From Stdlib Require Import String.
From S2P Require Import Prelude.

(** [Dict[str, A]]: the items in insertion order. *)
Record pydict (A : Type) := PyDict { pd_items : list (string * A) }.
Arguments PyDict {A} pd_items.
Arguments pd_items {A} _.

Section PyDictOps.
Context {A : Type}.

Fixpoint assoc_lookup (k : string) (l : list (string * A)) : option A :=
  match l with
  | [] => None
  | (k', v) :: l => if bool_decide (k = k') then Some v else assoc_lookup k l
  end.

(** [d[k] = v]: a key already there keeps its position. *)
Fixpoint assoc_set (k : string) (v : A) (l : list (string * A)) : list (string * A) :=
  match l with
  | [] => [(k, v)]
  | (k', v') :: l => if bool_decide (k = k') then (k', v) :: l else (k', v') :: assoc_set k v l
  end.

(** [d.get(k)] *)
#[export] Instance pydict_lookup : Lookup string A (pydict A) :=
  fun k d => assoc_lookup k (pd_items d).

(** [d[k] = v] *)
#[export] Instance pydict_insert : Insert string A (pydict A) :=
  fun k v d => PyDict (assoc_set k v (pd_items d)).

(** [{}] *)
#[export] Instance pydict_empty : Empty (pydict A) := PyDict [].

(** [{k: v}] *)
#[export] Instance pydict_singleton : SingletonM string A (pydict A) := fun k v => <[k := v]> ∅.

(** [list(d.keys())] *)
Definition pd_keys (d : pydict A) : list string := map fst (pd_items d).

(** A dict display [{k1: v1, ..., kn: vn}]: the items inserted in order. *)
Definition pd_of_list (l : list (string * A)) : pydict A :=
  foldl (fun d kv => <[kv.1 := kv.2]> d) ∅ l.

(** The keys of a Python dict are distinct. *)
Definition pd_wf (d : pydict A) : Prop := NoDup (pd_keys d).

(** The order forgotten: the first item of a key wins, as in lookup. *)
Fixpoint assoc_to_gmap (l : list (string * A)) : gmap string A :=
  match l with
  | [] => ∅
  | (k, v) :: l => <[k := v]> (assoc_to_gmap l)
  end.

Definition pd_to_gmap (d : pydict A) : gmap string A := assoc_to_gmap (pd_items d).

(** Python's [d1 == d2]: the same keys with the same values, in any order. *)
#[export] Instance pydict_equiv : Equiv (pydict A) := fun d1 d2 => forall k, d1 !! k = d2 !! k.
End PyDictOps.

(** ** Lookup and insertion *)

Section PyDictProps.
Context {A : Type}.
Implicit Types (d : pydict A) (l : list (string * A)) (k : string) (v : A).

Lemma pd_lookup_empty k : (∅ : pydict A) !! k = None.
Proof. done. Qed.

Lemma assoc_lookup_set l k k' v :
  assoc_lookup k' (assoc_set k v l) = if bool_decide (k' = k) then Some v else assoc_lookup k' l.
Proof.
  induction l as [|[k0 v0] l IH]; simpl; [done|].
  destruct (decide (k = k0)) as [<-|Hk].
  - rewrite bool_decide_true by done. simpl. by repeat case_bool_decide.
  - rewrite bool_decide_false by done. simpl. rewrite IH. by repeat case_bool_decide; subst.
Qed.

Lemma pd_lookup_insert d k k' v :
  (<[k := v]> d) !! k' = if bool_decide (k' = k) then Some v else d !! k'.
Proof. apply assoc_lookup_set. Qed.

Lemma pd_lookup_insert_eq d k v : (<[k := v]> d) !! k = Some v.
Proof. rewrite pd_lookup_insert. by rewrite bool_decide_true. Qed.

Lemma pd_lookup_insert_ne d k k' v : k <> k' -> (<[k := v]> d) !! k' = d !! k'.
Proof. intros Hne. rewrite pd_lookup_insert. by rewrite bool_decide_false by congruence. Qed.

Lemma pd_lookup_insert_Some d k k' v w :
  (<[k := v]> d) !! k' = Some w <-> (k = k' /\ v = w) \/ (k <> k' /\ d !! k' = Some w).
Proof.
  rewrite pd_lookup_insert. case_bool_decide; subst; naive_solver.
Qed.

Lemma assoc_lookup_keys l k : is_Some (assoc_lookup k l) <-> k ∈ map fst l.
Proof.
  induction l as [|[k0 v0] l IH]; simpl.
  - rewrite elem_of_nil. split; [by intros []|done].
  - rewrite elem_of_cons. case_bool_decide; naive_solver.
Qed.

(** A key is listed by [keys()] exactly when [get] finds it. *)
Lemma pd_elem_of_keys d k : k ∈ pd_keys d <-> is_Some (d !! k).
Proof. symmetry. apply assoc_lookup_keys. Qed.

Lemma assoc_keys_set_new l k v : assoc_lookup k l = None -> map fst (assoc_set k v l) = map fst l ++ [k].
Proof.
  induction l as [|[k0 v0] l IH]; simpl; [done|].
  case_bool_decide; [done|]. simpl. intros Hl. by rewrite IH.
Qed.

Lemma assoc_keys_set_old l k v : is_Some (assoc_lookup k l) -> map fst (assoc_set k v l) = map fst l.
Proof.
  induction l as [|[k0 v0] l IH]; simpl; [by intros []|].
  case_bool_decide; [done|]. simpl. intros Hl. by rewrite IH.
Qed.

(** [d[k] = v] on a new key appends it to [keys()] ... *)
Lemma pd_keys_insert_new d k v : d !! k = None -> pd_keys (<[k := v]> d) = pd_keys d ++ [k].
Proof. apply assoc_keys_set_new. Qed.

(** ... and on a key already there leaves the key order as it is. *)
Lemma pd_keys_insert_old d k v : is_Some (d !! k) -> pd_keys (<[k := v]> d) = pd_keys d.
Proof. apply assoc_keys_set_old. Qed.

Lemma pd_wf_empty : pd_wf (∅ : pydict A).
Proof. constructor. Qed.

Lemma pd_wf_insert d k v : pd_wf d -> pd_wf (<[k := v]> d).
Proof.
  unfold pd_wf. intros Hwf. destruct (d !! k) as [w|] eqn:Hk; [by rewrite pd_keys_insert_old|].
  rewrite pd_keys_insert_new by done. apply NoDup_app. split_and!; [done| |apply NoDup_singleton].
  intros x Hx ->%list_elem_of_singleton. apply pd_elem_of_keys in Hx as [w Hw]. congruence.
Qed.

(** Every dict built from [{}] by [d[k] = v] has distinct keys. *)
Lemma pd_wf_of_list l : pd_wf (pd_of_list l).
Proof.
  unfold pd_of_list. cut (forall d, pd_wf d -> pd_wf (foldl (fun d kv => <[kv.1 := kv.2]> d) d l));
    [intros H; apply H, pd_wf_empty|].
  induction l as [|kv l IH]; simpl; [done|]. intros d Hd. by apply IH, pd_wf_insert.
Qed.

Lemma pd_keys_foldl l d :
  NoDup l.*1 -> (forall k, k ∈ l.*1 -> d !! k = None) ->
  pd_keys (foldl (fun d kv => <[kv.1 := kv.2]> d) d l) = pd_keys d ++ l.*1.
Proof.
  revert d. induction l as [|[k v] l IH]; intros d Hnd Hfresh; simpl; [by rewrite app_nil_r|].
  apply NoDup_cons in Hnd as [Hk Hnd].
  rewrite IH; [|done|].
  - rewrite pd_keys_insert_new by (apply Hfresh; simpl; apply elem_of_cons; by left).
    by rewrite <- app_assoc.
  - intros k' Hk'. rewrite pd_lookup_insert_ne by (intros ->; done).
    apply Hfresh. simpl. apply elem_of_cons. by right.
Qed.

(** A dict display with distinct keys lists them, by [keys()], in the
    order they were written. *)
Lemma pd_keys_of_list l : NoDup l.*1 -> pd_keys (pd_of_list l) = l.*1.
Proof. intros Hnd. unfold pd_of_list. by rewrite pd_keys_foldl. Qed.

(** What holds of every value of the dict holds of what [get] finds. *)
Lemma pd_lookup_Forall (P : A -> Prop) d k v :
  Forall (fun kv => P kv.2) (pd_items d) -> d !! k = Some v -> P v.
Proof.
  destruct d as [l]. unfold lookup, pydict_lookup; simpl.
  induction l as [|[k0 v0] l IH]; simpl; [done|]. intros [? ?]%Forall_cons.
  case_bool_decide; [intros [= <-]; done|auto].
Qed.

(** ** Refinement of [gmap] *)

Lemma pd_to_gmap_lookup d k : pd_to_gmap d !! k = d !! k.
Proof.
  destruct d as [l]. unfold pd_to_gmap, lookup at 2, pydict_lookup; simpl.
  induction l as [|[k0 v0] l IH]; simpl; [apply lookup_empty|].
  rewrite lookup_insert. case_bool_decide; subst; [by rewrite decide_True|].
  rewrite decide_False by congruence. done.
Qed.

Lemma pd_to_gmap_insert d k v : pd_to_gmap (<[k := v]> d) = <[k := v]> (pd_to_gmap d).
Proof.
  apply map_eq. intros k'. rewrite pd_to_gmap_lookup, pd_lookup_insert, lookup_insert, pd_to_gmap_lookup.
  by destruct (decide (k = k')); case_bool_decide; subst.
Qed.

Lemma pd_to_gmap_empty : pd_to_gmap (∅ : pydict A) = ∅.
Proof. done. Qed.

(** ** Python's [==] on dicts *)

#[export] Instance pydict_equivalence : Equivalence (≡@{pydict A}).
Proof. split; [by intros d k|by intros d1 d2 H k|intros d1 d2 d3 H1 H2 k; by rewrite H1, H2]. Qed.

#[export] Instance pydict_lookup_proper k : Proper ((≡@{pydict A}) ==> eq) (lookup k).
Proof. intros d1 d2 H. apply H. Qed.

#[export] Instance pydict_insert_proper k v : Proper ((≡@{pydict A}) ==> (≡)) (insert k v).
Proof. intros d1 d2 H k'. by rewrite !pd_lookup_insert, H. Qed.

(** Two dicts are [==] exactly when they forget to the same map. *)
Lemma pd_equiv_to_gmap d1 d2 : d1 ≡ d2 <-> pd_to_gmap d1 = pd_to_gmap d2.
Proof.
  split.
  - intros H. apply map_eq. intros k. by rewrite !pd_to_gmap_lookup.
  - intros H k. by rewrite <- !pd_to_gmap_lookup, H.
Qed.

#[export] Instance pd_to_gmap_proper : Proper ((≡@{pydict A}) ==> eq) pd_to_gmap.
Proof. intros d1 d2. apply pd_equiv_to_gmap. Qed.
End PyDictProps.
