(* ===== verification/Registry.v ===== *)
(** * The tool registry ([src/registry.py], class [ToolRegistry])

    The Tool Access Facade of the spec: a name-keyed table of callables
    that nodes look up.  [ToolFacade] is the interface the engine and
    the nodes are verified against (strict lookup, non-strict lookup,
    registration); [ToolRegistry] implements it and [ToolRegistry_laws]
    discharges its laws.  The callables are left abstract ([F]); Python
    tests them for truthiness ([if not tool:]), which [tool_truthy]
    models. *)

From stdpp Require Import base gmap strings list.
From Stdlib Require Import String.
From S2P Require Import Prelude PyStr PyDict.

Open Scope engine_scope.

(** ** The facade interface *)

Definition tool_not_registered (name : string) : exc :=
  KeyError ("Tool '" +:+ name +:+ "' is not registered.").

Class ToolFacade (R F : Type) := {
  facade_get : string -> R -> result F;
  facade_try_get : string -> R -> option F;
  facade_register : string -> F -> R -> R
}.

(** What a facade promises to the nodes: registration is seen by both
    lookups, other names are untouched, a strict lookup returns only what
    the non-strict one finds and fails with the [KeyError] of the code. *)
Class ToolFacadeLaws (R F : Type) `{!ToolFacade R F} := {
  facade_try_get_register_eq n f r :
    facade_try_get n (facade_register n f r) = Some f;
  facade_try_get_register_ne n m f r :
    n <> m -> facade_try_get m (facade_register n f r) = facade_try_get m r;
  facade_get_ok n r f :
    facade_get n r = Ok f -> facade_try_get n r = Some f;
  facade_get_err n r e :
    facade_get n r = Err e -> e = tool_not_registered n;
  facade_get_absent n r :
    facade_try_get n r = None -> facade_get n r = Err (tool_not_registered n)
}.

(** ** The class [ToolRegistry] *)

Module ToolRegistry.
Section ToolRegistry.
  Context {F : Type} (tool_truthy : F -> bool).

  (** [self._tools: Dict[str, Callable]] *)
Record ToolRegistry := mkToolRegistry { _tools : pydict F }.

  (** [__init__] *)
Definition init : ToolRegistry := mkToolRegistry ∅.

  (** [register(name, func)]: [self._tools[name] = func] *)
Definition register (name : string) (func : F) (self : ToolRegistry) : ToolRegistry :=
    mkToolRegistry (<[name := func]> (_tools self)).

  (** [get(name)]: [tool = self._tools.get(name)]; [if not tool: raise
      KeyError(...)]; [return tool]. *)
Definition get (name : string) (self : ToolRegistry) : result F :=
    match _tools self !! name with
    | Some tool => if tool_truthy tool then Ok tool else Err (tool_not_registered name)
    | None => Err (tool_not_registered name)
    end.

  (** [try_get(name)]: [self._tools.get(name)] *)
Definition try_get (name : string) (self : ToolRegistry) : option F :=
    _tools self !! name.

  (** [list_tools()]: [dict(self._tools)], a copy of the table. *)
Definition list_tools (self : ToolRegistry) : pydict F := _tools self.
End ToolRegistry.
Arguments ToolRegistry : clear implicits.
End ToolRegistry.

#[export] Instance ToolRegistry_facade {F} (tool_truthy : F -> bool) :
  ToolFacade (ToolRegistry.ToolRegistry F) F := {
  facade_get := ToolRegistry.get tool_truthy;
  facade_try_get := ToolRegistry.try_get;
  facade_register := ToolRegistry.register
}.

(** ** Properties of [ToolRegistry] *)

Section ToolRegistryProps.
  Context {F : Type} (tool_truthy : F -> bool).

  (** The strict lookup succeeds exactly on the registered truthy tools. *)
Lemma get_ok_iff name (r : ToolRegistry.ToolRegistry F) f :
    ToolRegistry.get tool_truthy name r = Ok f <->
    ToolRegistry.try_get name r = Some f /\ tool_truthy f = true.
  Proof.
    unfold ToolRegistry.get, ToolRegistry.try_get.
    destruct (ToolRegistry._tools r !! name) as [t|];
      [destruct (tool_truthy t) eqn:Ht|]; split; intros H;
      destruct_and?; simplify_eq; auto; congruence.
  Qed.

  (** Every failure of the strict lookup is the [KeyError] naming the tool. *)
Lemma get_err name (r : ToolRegistry.ToolRegistry F) e :
    ToolRegistry.get tool_truthy name r = Err e -> e = tool_not_registered name.
  Proof.
    unfold ToolRegistry.get.
    destruct (ToolRegistry._tools r !! name) as [t|]; [destruct (tool_truthy t)|]; congruence.
  Qed.

Lemma try_get_register name name' f (r : ToolRegistry.ToolRegistry F) :
    ToolRegistry.try_get name' (ToolRegistry.register name f r) =
    if decide (name = name') then Some f else ToolRegistry.try_get name' r.
  Proof.
  unfold ToolRegistry.try_get, ToolRegistry.register. simpl. rewrite pd_lookup_insert.
  by destruct (decide (name = name')); case_bool_decide; subst.
Qed.
End ToolRegistryProps.

#[export] Instance ToolRegistry_laws {F} (tool_truthy : F -> bool) :
  @ToolFacadeLaws _ _ (ToolRegistry_facade tool_truthy).
Proof.
  split; simpl.
  - intros. rewrite try_get_register. by rewrite decide_True.
  - intros. rewrite try_get_register. by rewrite decide_False.
  - intros n r f Hf. by apply get_ok_iff in Hf as [? _].
  - apply get_err.
  - intros n r H. unfold ToolRegistry.get. unfold ToolRegistry.try_get in H. by rewrite H.
Qed.

(** ** The strict lookup on falsy values, and its error text *)

Section RegistryFindings.
Context {F : Type} (tool_truthy : F -> bool).

(** C24. A value registered under a name but falsy (Python's
    [register(name, None)]) is refused by the strict lookup with the same
    "is not registered" [KeyError], although [try_get] finds it. *)
Theorem get_registered_falsy (r : ToolRegistry.ToolRegistry F) name f :
  tool_truthy f = false ->
  ToolRegistry.get tool_truthy name (ToolRegistry.register name f r) = Err (tool_not_registered name) /\
  ToolRegistry.try_get name (ToolRegistry.register name f r) = Some f.
Proof.
  intros Hf. unfold ToolRegistry.get, ToolRegistry.try_get, ToolRegistry.register. simpl.
  by rewrite pd_lookup_insert_eq, Hf.
Qed.

(** C25. Registration and lookup round trip ([register], [get],
    [list_tools]): after [register(name, f)] with a truthy [f], the
    strict lookup of [name] returns [f], every other name is looked up
    as before, and [list_tools()] lists the names in the order they were
    first registered: [name] is appended when new and keeps its place
    when it was already there. *)
Theorem register_get_roundtrip (r : ToolRegistry.ToolRegistry F) name f name' :
  tool_truthy f = true ->
  ToolRegistry.get tool_truthy name (ToolRegistry.register name f r) = Ok f /\
  (name' <> name -> ToolRegistry.get tool_truthy name' (ToolRegistry.register name f r) =
                    ToolRegistry.get tool_truthy name' r) /\
  pd_keys (ToolRegistry.list_tools (ToolRegistry.register name f r)) =
    match ToolRegistry.try_get name r with
    | Some _ => pd_keys (ToolRegistry.list_tools r)
    | None => pd_keys (ToolRegistry.list_tools r) ++ [name]
    end.
Proof.
  intros Hf. unfold ToolRegistry.get, ToolRegistry.try_get, ToolRegistry.list_tools, ToolRegistry.register.
  cbn [ToolRegistry._tools]. split_and!.
  - by rewrite pd_lookup_insert_eq, Hf.
  - intros Hne. by rewrite pd_lookup_insert_ne by congruence.
  - destruct (ToolRegistry._tools r !! name) eqn:E;
      [by apply pd_keys_insert_old; eexists|by apply pd_keys_insert_new].
Qed.
End RegistryFindings.

(** C23. [str()] of the [KeyError] a missing tool raises, as the engine
    logs it after ["Run failed: "]: the message holds single quotes, so
    Python's [repr] wraps it in double quotes. *)
Theorem tool_not_registered_str name :
  repr_keeps dquote name = true ->
  exc_str (tool_not_registered name) =
    String dquote ("Tool '" +:+ name +:+ "' is not registered." +:+ String dquote "").
Proof.
  intros Hn. unfold exc_str, tool_not_registered, py_repr.
  assert (Hk : repr_keeps dquote ("Tool '" +:+ name +:+ "' is not registered.") = true).
  { unfold repr_keeps. rewrite !list_ascii_of_append, !forallb_app.
    fold (repr_keeps dquote name). by rewrite Hn. }
  assert (Hs : has_char squote ("Tool '" +:+ name +:+ "' is not registered.") = true)
    by (rewrite has_char_app; reflexivity).
  rewrite Hs, (repr_keeps_no_char _ _ Hk). cbn [andb negb]. rewrite (repr_body_keeps _ _ Hk).
  by rewrite !append_assoc_str.
Qed.

(** ** Witnesses *)

Definition option_truthy (o : option unit) : bool :=
  match o with Some _ => true | None => false end.

Lemma get_registered_falsy_witness :
  option_truthy None = false /\
  ToolRegistry.get option_truthy "x" (ToolRegistry.register "x" None ToolRegistry.init) =
    Err (tool_not_registered "x") /\
  ToolRegistry.try_get "x" (ToolRegistry.register "x" None (@ToolRegistry.init (option unit))) = Some None.
Proof.
  split; [reflexivity|]. exact (get_registered_falsy option_truthy ToolRegistry.init "x" None eq_refl).
Defined.

Lemma tool_not_registered_str_witness :
  repr_keeps dquote "detect_smells" = true /\
  exc_str (tool_not_registered "detect_smells") =
    String dquote ("Tool '" +:+ "detect_smells" +:+ "' is not registered." +:+ String dquote "").
Proof.
  assert (H : repr_keeps dquote "detect_smells" = true) by (vm_compute; reflexivity).
  split; [exact H | exact (tool_not_registered_str "detect_smells" H)].
Defined.

Lemma register_get_roundtrip_witness :
  option_truthy (Some tt) = true /\
  ToolRegistry.get option_truthy "x" (ToolRegistry.register "x" (Some tt) (ToolRegistry.register "y" (@None unit) ToolRegistry.init)) = Ok (Some tt) /\
  ("y" <> "x"%string -> ToolRegistry.get option_truthy "y" (ToolRegistry.register "x" (Some tt) (ToolRegistry.register "y" (@None unit) ToolRegistry.init)) =
     ToolRegistry.get option_truthy "y" (ToolRegistry.register "y" (@None unit) ToolRegistry.init)) /\
  pd_keys (ToolRegistry.list_tools (ToolRegistry.register "x" (Some tt) (ToolRegistry.register "y" (@None unit) ToolRegistry.init))) =
    match ToolRegistry.try_get "x" (ToolRegistry.register "y" (@None unit) (@ToolRegistry.init (option unit))) with
    | Some _ => pd_keys (ToolRegistry.list_tools (ToolRegistry.register "y" (@None unit) ToolRegistry.init))
    | None => pd_keys (ToolRegistry.list_tools (ToolRegistry.register "y" (@None unit) ToolRegistry.init)) ++ ["x"%string]
    end.
Proof.
  split; [reflexivity|].
  exact (register_get_roundtrip option_truthy (ToolRegistry.register "y" (@None unit) ToolRegistry.init) "x" (Some tt) "y" eq_refl).
Defined.
