(* ===== verification/Tools.v ===== *)
(** * The default tools ([src/registry.py]: [_detect_smells],
    [_estimate_length_complexity], [register_default_tools])

    Two pure functions on the submitted code, over the [PyStr] model of
    [str]: a heuristic smell detector returning its findings in a fixed
    order, and a line-count complexity proxy clamped to [5, 100].  Python
    functions are truthy, so both pass the registry's [if not tool:]. *)

From stdpp Require Import base gmap strings list.
From Stdlib Require Import String ZArith Lia.
From S2P Require Import Prelude PyStr PyDict Registry.

Open Scope engine_scope.

(** The non-blank lines, stripped:
    [[line.strip() for line in code.splitlines() if line.strip()]]. *)
Definition stripped_lines (code : string) : list string :=
  List.map strip (List.filter (fun line => py_truthy_str (strip line)) (splitlines code)).

Definition msg_no_code : string := "No code provided.".
Definition msg_todo : string := "Found TODO/FIXME markers.".
Definition msg_long : string := "Lines exceed 120 characters.".
Definition msg_comments : string := "Comment density is unusually high.".
Definition msg_print : string := "Uses print statements instead of logging.".

(** [sum(1 for line in lines if line.startswith("#")) > len(lines) * 0.5]:
    the float product is exact, so the test is [len(lines) < 2 * count]. *)
Definition comment_heavy (lines : list string) : bool :=
  List.length lines <? 2 * List.length (List.filter (fun line => startswith line "#") lines).

(** [_detect_smells(code)] *)
Definition _detect_smells (code : string) : list string :=
  let lines := stripped_lines code in
  match lines with
  | [] => [msg_no_code]
  | _ =>
      (if existsb (fun line => py_contains "TODO" line || py_contains "FIXME" line) lines
       then [msg_todo] else []) ++
      (if existsb (fun line => 120 <? String.length line) lines then [msg_long] else []) ++
      (if comment_heavy lines then [msg_comments] else []) ++
      (if py_contains "print(" code && negb (py_contains "logging" code) then [msg_print] else [])
  end.

(** [_estimate_length_complexity(code)]:
    [min(100, max(5, len([ln for ln in code.splitlines() if ln.strip()]) // 2))]. *)
Definition _estimate_length_complexity (code : string) : Z :=
  Z.min 100 (Z.max 5
    (Z.of_nat (List.length (List.filter (fun ln => py_truthy_str (strip ln)) (splitlines code))) / 2)).

(** The callables the registry holds. *)
Inductive tool :=
| StrListTool (f : string -> list string)
| IntTool (f : string -> Z).

(** A Python function object is always truthy. *)
Definition tool_truthy (t : tool) : bool := true.

(** [register_default_tools(tool_registry)] *)
Definition register_default_tools (r : ToolRegistry.ToolRegistry tool) : ToolRegistry.ToolRegistry tool :=
  ToolRegistry.register "estimate_length_complexity" (IntTool _estimate_length_complexity)
    (ToolRegistry.register "detect_smells" (StrListTool _detect_smells) r).

(** ** Properties of the tools *)

Definition nonblank_count (code : string) : nat :=
  List.length (List.filter (fun ln => py_truthy_str (strip ln)) (splitlines code)).

(** C28. Between the clamps the estimate is half the number of non-blank
    lines, rounded down. *)
Theorem estimate_length_complexity_linear code :
  10 <= nonblank_count code < 202 ->
  _estimate_length_complexity code = Z.of_nat (nonblank_count code / 2).
Proof.
  unfold _estimate_length_complexity, nonblank_count. intros H.
  rewrite Nat2Z.inj_div. change (Z.of_nat 2) with 2%Z.
  assert (10 <= Z.of_nat (List.length (List.filter (fun ln => py_truthy_str (strip ln)) (splitlines code))) < 202)%Z
    by lia.
  rewrite Z.max_r, Z.min_r; [done| |]; Z.to_euclidean_division_equations; lia.
Qed.

Lemma stripped_lines_nil code :
  stripped_lines code = [] <-> Forall (fun l => all_space l = true) (splitlines code).
Proof.
  unfold stripped_lines. induction (splitlines code) as [|l ls IH]; simpl.
  - split; constructor.
  - rewrite Forall_cons, <- IH. unfold py_truthy_str.
    destruct (String.eqb_spec (strip l) "") as [E|E]; simpl.
    + apply strip_empty in E. naive_solver.
    + rewrite <- strip_empty. split; [discriminate|naive_solver].
Qed.

(** C30. The detector reports "No code provided." exactly when every line
    of the code is blank. *)
Theorem detect_smells_no_code code :
  _detect_smells code = [msg_no_code] <-> Forall (fun l => all_space l = true) (splitlines code).
Proof.
  rewrite <- stripped_lines_nil. unfold _detect_smells.
  destruct (stripped_lines code) as [|l ls]; [done|]. split; [|discriminate].
  intros H. exfalso.
  repeat match type of H with context [if ?b then _ else _] => destruct b end;
    simpl in H; try discriminate; injection H; unfold msg_no_code, msg_todo, msg_long,
    msg_comments, msg_print; discriminate.
Qed.

(** C29. The report is either the single "No code provided." or the
    findings in the order the code checks them, each at most once. *)
Theorem detect_smells_shape code :
  _detect_smells code = [msg_no_code] \/
  _detect_smells code `sublist_of` [msg_todo; msg_long; msg_comments; msg_print].
Proof.
  unfold _detect_smells. destruct (stripped_lines code) as [|l ls]; [by left|right].
  repeat match goal with |- context [if ?b then _ else _] => destruct b end; simpl;
    repeat first [apply sublist_skip | apply sublist_cons | apply sublist_nil_l].
Qed.

(** C31. The print smell is reported exactly when some line is not blank,
    ["print("] occurs in the raw code and ["logging"] does not. *)
Theorem detect_smells_print code :
  msg_print ∈ _detect_smells code <->
  stripped_lines code <> [] /\ py_contains "print(" code = true /\ py_contains "logging" code = false.
Proof.
  unfold _detect_smells. destruct (stripped_lines code) as [|l ls].
  - rewrite list_elem_of_singleton. split; [discriminate|naive_solver].
  - rewrite !elem_of_app.
    destruct (py_contains "print(" code), (py_contains "logging" code); simpl;
      repeat match goal with |- context [if ?b then _ else _] => destruct b end;
      set_solver.
Qed.

(** After [register_default_tools] the strict lookup finds both
    default tools, and nothing else changes. *)
Lemma register_default_tools_get (r : ToolRegistry.ToolRegistry tool) name :
  ToolRegistry.get tool_truthy "detect_smells" (register_default_tools r) = Ok (StrListTool _detect_smells) /\
  ToolRegistry.get tool_truthy "estimate_length_complexity" (register_default_tools r) =
    Ok (IntTool _estimate_length_complexity) /\
  (name <> "detect_smells"%string -> name <> "estimate_length_complexity"%string ->
   ToolRegistry.try_get name (register_default_tools r) = ToolRegistry.try_get name r).
Proof.
  unfold register_default_tools. split_and!.
  - unfold ToolRegistry.get, ToolRegistry.register. cbn [ToolRegistry._tools].
    by rewrite pd_lookup_insert_ne, pd_lookup_insert_eq by discriminate.
  - unfold ToolRegistry.get, ToolRegistry.register. cbn [ToolRegistry._tools]. by rewrite pd_lookup_insert_eq.
  - intros H1 H2. rewrite !try_get_register. by rewrite !decide_False by congruence.
Qed.

(** ** Witnesses *)

(** Twenty lines ["x"], each ended by ["\n"]. *)
Definition code_20_lines : string := join_lines (repeat "x"%string 20).

Lemma estimate_length_complexity_linear_witness :
  10 <= nonblank_count code_20_lines < 202 /\
  _estimate_length_complexity code_20_lines = Z.of_nat (nonblank_count code_20_lines / 2).
Proof.
  assert (H : 10 <= nonblank_count code_20_lines < 202) by (vm_compute; lia).
  split; [exact H | exact (estimate_length_complexity_linear code_20_lines H)].
Defined.

