(* ===== verification/Node.v ===== *)
(** * The node contract ([src/engine.py]: [NodeResult], [NodeCallable])

    A node is an [async] callable [(state, tool_registry, logger) ->
    NodeResult].  Its only effects are the ones the engine hands it: it
    reads and mutates the run's shared [state] dict in place, appends
    lines to the run's log through [logger] (each call takes effect at
    once), looks tools up in the facade (or registers new ones: the
    registry object is shared), and returns a [NodeResult] or raises.
    [NodeCallable] is a program over exactly these effects and
    [exec_node] its interpretation against a [NodeEnv], the part of the
    world the node can touch. *)

From stdpp Require Import base gmap strings list.
From Stdlib Require Import String.
From S2P Require Import Prelude PyStr Registry.

Open Scope engine_scope.

(** [@dataclass class NodeResult: next_node = None; message = None] *)
Record NodeResult := mkNodeResult {
  next_node : option string;
  message : option string
}.

(** The body of an [async def node(state, tools, log)]. *)
Inductive NodeCallable (V F : Type) : Type :=
| NReturn (r : NodeResult)                                  (** [return NodeResult(...)] *)
| NRaise (e : exc)                                          (** [raise e] *)
| NLog (msg : string) (k : NodeCallable V F)               (** [log(msg)] *)
| NGetState (k : gmap string V -> NodeCallable V F)        (** read [state] *)
| NSetState (st : gmap string V) (k : NodeCallable V F)    (** mutate [state] in place *)
| NGetTool (name : string) (k : F -> NodeCallable V F)     (** [tools.get(name)] *)
| NTryGetTool (name : string) (k : option F -> NodeCallable V F) (** [tools.try_get(name)] *)
| NRegisterTool (name : string) (f : F) (k : NodeCallable V F). (** [tools.register(name, f)] *)
Arguments NReturn {V F} r.
Arguments NRaise {V F} e.
Arguments NLog {V F} msg k.
Arguments NGetState {V F} k.
Arguments NSetState {V F} st k.
Arguments NGetTool {V F} name k.
Arguments NTryGetTool {V F} name k.
Arguments NRegisterTool {V F} name f k.

(** What a node invocation can touch: the run's [state] dict, the run's
    [logs] list behind the [logger] closure, and the tool facade. *)
Record NodeEnv (V R : Type) := mkNodeEnv {
  env_state : gmap string V;
  env_logs : list string;
  env_tools : R
}.
Arguments mkNodeEnv {V R} env_state env_logs env_tools.
Arguments env_state {V R} _.
Arguments env_logs {V R} _.
Arguments env_tools {V R} _.

Section Exec.
  Context {V F R : Type} `{!ToolFacade R F}.

Definition env_log (e : NodeEnv V R) (msg : string) : NodeEnv V R :=
    mkNodeEnv (env_state e) (env_logs e ++ [msg]) (env_tools e).

  (** [await handler(run.state, self.tool_registry, logger)]: the
      effects in program order; a [KeyError] of a strict lookup is
      raised out of the node. *)
Fixpoint exec_node (p : NodeCallable V F) (e : NodeEnv V R) : NodeEnv V R * result NodeResult :=
    match p with
    | NReturn r => (e, Ok r)
    | NRaise x => (e, Err x)
    | NLog msg k => exec_node k (env_log e msg)
    | NGetState k => exec_node (k (env_state e)) e
    | NSetState st k => exec_node k (mkNodeEnv st (env_logs e) (env_tools e))
    | NGetTool name k =>
        match facade_get name (env_tools e) with
        | Ok f => exec_node (k f) e
        | Err x => (e, Err x)
        end
    | NTryGetTool name k => exec_node (k (facade_try_get name (env_tools e))) e
    | NRegisterTool name f k =>
        exec_node k (mkNodeEnv (env_state e) (env_logs e) (facade_register name f (env_tools e)))
    end.
End Exec.

(** ** Properties of node execution *)

Section ExecProps.
  Context {V F R : Type} `{!ToolFacade R F}.

  (** Frame property of the log sink: a node only appends to the log,
      and what it does (state, tools, result, lines it appends) does not
      depend on the lines already there. *)
Lemma exec_node_frame (p : NodeCallable V F) st (l : list string) (t : R) :
    exec_node p (mkNodeEnv st l t) =
    let '(e', r) := exec_node p (mkNodeEnv st [] t) in
    (mkNodeEnv (env_state e') (l ++ env_logs e') (env_tools e'), r).
  Proof.
    revert st l t. induction p as [r|x|msg k IH|k IH|st' k IH|name k IH|name k IH|name f k IH];
      intros st l t; simpl; rewrite ?app_nil_r; try done.
    - unfold env_log. simpl. rewrite (IH st (l ++ [msg])), (IH st [msg]).
      destruct (exec_node k _) as [[? ? ?] ?]. simpl. by rewrite <- app_assoc.
    - destruct (facade_get name t); [apply IH | by rewrite app_nil_r].
  Qed.

Lemma exec_node_logs_prefix (p : NodeCallable V F) e :
    env_logs e `prefix_of` env_logs (exec_node p e).1.
  Proof.
    destruct e as [st l t]. rewrite exec_node_frame.
    destruct (exec_node p _) as [[? ? ?] ?]. simpl. by exists env_logs0.
  Qed.

  (** The node never calls [tools.register]. *)
Fixpoint no_register (p : NodeCallable V F) : Prop :=
    match p with
    | NReturn _ | NRaise _ => True
    | NLog _ k | NSetState _ k => no_register k
    | NGetState k => forall s, no_register (k s)
    | NGetTool _ k => forall f, no_register (k f)
    | NTryGetTool _ k => forall o, no_register (k o)
    | NRegisterTool _ _ _ => False
    end.

  (** Such a node leaves the shared registry as it found it. *)
Lemma exec_node_tools_unchanged (p : NodeCallable V F) e :
    no_register p -> env_tools (exec_node p e).1 = env_tools e.
  Proof.
    revert e. induction p as [r|x|msg k IH|k IH|st k IH|name k IH|name k IH|name f k IH];
      simpl; intros e Hp; try done; try (rewrite IH; [reflexivity | done]).
    destruct (facade_get name (env_tools e)); [by apply IH | done].
  Qed.
End ExecProps.

Section ReadOnly.
Context {V F R : Type} `{!ToolFacade R F}.

(** The node never writes the [state] dict. *)
Fixpoint no_set_state (p : NodeCallable V F) : Prop :=
  match p with
  | NReturn _ | NRaise _ => True
  | NLog _ k | NRegisterTool _ _ k => no_set_state k
  | NSetState _ _ => False
  | NGetState k => forall s, no_set_state (k s)
  | NGetTool _ k => forall f, no_set_state (k f)
  | NTryGetTool _ k => forall o, no_set_state (k o)
  end.

Lemma exec_node_state_unchanged (p : NodeCallable V F) (e : NodeEnv V R) :
  no_set_state p -> env_state (exec_node p e).1 = env_state e.
Proof.
  revert e. induction p as [r|x|msg k IH|k IH|st k IH|name k IH|name k IH|name f k IH];
    simpl; intros e Hp; try done; try (rewrite IH; [reflexivity | done]).
  destruct (facade_get name (env_tools e)); [by apply IH | done].
Qed.
End ReadOnly.
