(* ===== verification/Engine.v ===== *)
(** * The workflow engine ([src/engine.py], class [WorkflowEngine])

    [GraphDefinition], [GraphRun] and [WorkflowEngine] as records; the
    graph table and the run table as [gmap]s keyed by id; the tool
    registry as an abstract facade [R] (see [Registry.ToolFacade]).  The
    [while current:] loop of [run_graph] is [run_loop], bounded by a
    fuel that counts loop iterations; [run_graph] returns [None] when the
    fuel runs out with the run still [running].  The run record that
    [run_graph] mutates is the object it stored in [self.runs[run_id]]:
    the model writes the final record back under [run_id], which is what
    the aliasing makes visible to [get_run]. *)

From stdpp Require Import base gmap strings list.
From Stdlib Require Import String.
From S2P Require Import Prelude PyStr PyDict Registry Node.

Open Scope engine_scope.

(** [GraphRun.status]: the strings ["pending"], ["running"],
    ["completed"], ["failed"]. *)
Inductive RunStatus := Pending | Running | Completed | Failed.

#[export] Instance RunStatus_eq_dec : EqDecision RunStatus.
Proof. solve_decision. Qed.

Definition status_str (s : RunStatus) : string :=
  match s with
  | Pending => "pending"
  | Running => "running"
  | Completed => "completed"
  | Failed => "failed"
  end.

(** [@dataclass class GraphDefinition] *)
Record GraphDefinition (V F : Type) := mkGraphDefinition {
  start_node : string;
  nodes : pydict (NodeCallable V F)
}.
Arguments mkGraphDefinition {V F} start_node nodes.
Arguments start_node {V F} _.
Arguments nodes {V F} _.

(** [@dataclass class GraphRun] *)
Record GraphRun (V : Type) := mkGraphRun {
  run_id : string;
  graph_id : string;
  state : gmap string V;
  logs : list string;
  status : RunStatus;
  current_node : option string
}.
Arguments mkGraphRun {V} run_id graph_id state logs status current_node.
Arguments run_id {V} _.
Arguments graph_id {V} _.
Arguments state {V} _.
Arguments logs {V} _.
Arguments status {V} _.
Arguments current_node {V} _.

(** [class WorkflowEngine]: [self.graphs], [self.runs], [self.tool_registry]. *)
Record WorkflowEngine (V F R : Type) := mkWorkflowEngine {
  graphs : gmap string (GraphDefinition V F);
  runs : gmap string (GraphRun V);
  tool_registry : R
}.
Arguments mkWorkflowEngine {V F R} graphs runs tool_registry.
Arguments graphs {V F R} _.
Arguments runs {V F R} _.
Arguments tool_registry {V F R} _.

(** What a loop iteration can end in: the loop condition fails or a
    [break] ([LoopExit]), the node raised ([LoopRaised]), or the fuel ran
    out before the loop test ([LoopOutOfFuel], the run is still going). *)
Inductive LoopOutcome (V R : Type) :=
| LoopExit (run : GraphRun V) (tools : R)
| LoopRaised (run : GraphRun V) (tools : R) (e : exc)
| LoopOutOfFuel (run : GraphRun V) (tools : R) (current : option string).
Arguments LoopExit {V R} run tools.
Arguments LoopRaised {V R} run tools e.
Arguments LoopOutOfFuel {V R} run tools current.

Section Engine.
  Context {V F R : Type} `{!ToolFacade R F}.

  (** ** Field updates of the run record *)

Definition set_status (run : GraphRun V) (s : RunStatus) : GraphRun V :=
    mkGraphRun (run_id run) (graph_id run) (state run) (logs run) s (current_node run).

Definition set_current_node (run : GraphRun V) (c : option string) : GraphRun V :=
    mkGraphRun (run_id run) (graph_id run) (state run) (logs run) (status run) c.

  (** [_append_log(run, message)]: [run.logs.append(message)] *)
Definition _append_log (run : GraphRun V) (message : string) : GraphRun V :=
    mkGraphRun (run_id run) (graph_id run) (state run) (logs run ++ [message])
      (status run) (current_node run).

  (** [await handler(run.state, self.tool_registry, logger)] where
      [logger = self._logger(run)] appends to [run.logs]: the node runs
      against the run's state dict, the run's log and the registry. *)
Definition invoke_handler (handler : NodeCallable V F) (run : GraphRun V) (tools : R)
      : GraphRun V * R * result NodeResult :=
    let '(e, r) := exec_node handler (mkNodeEnv (state run) (logs run) tools) in
    (mkGraphRun (run_id run) (graph_id run) (env_state e) (env_logs e)
       (status run) (current_node run), env_tools e, r).

  (** ** Engine operations *)

  (** [__init__(tool_registry)] *)
Definition init (tool_registry : R) : WorkflowEngine V F R :=
    mkWorkflowEngine ∅ ∅ tool_registry.

  (** [register_graph(graph_id, graph)]: [self.graphs[graph_id] = graph];
      [return graph]. *)
Definition register_graph (graph_id : string) (graph : GraphDefinition V F)
      (self : WorkflowEngine V F R) : WorkflowEngine V F R * GraphDefinition V F :=
    (mkWorkflowEngine (<[graph_id := graph]> (graphs self)) (runs self) (tool_registry self),
     graph).

  (** [has_graph(graph_id)]: [graph_id in self.graphs] *)
Definition has_graph (graph_id : string) (self : WorkflowEngine V F R) : bool :=
    bool_decide (is_Some (graphs self !! graph_id)).

  (** [get_run(run_id)]: [self.runs.get(run_id)] *)
Definition get_run (run_id : string) (self : WorkflowEngine V F R) : option (GraphRun V) :=
    runs self !! run_id.

  (** The test [while current:] on [current : Optional[str]]. *)
Definition loop_guard (current : option string) : option string :=
    match current with
    | Some c => if py_truthy_str c then Some c else None
    | None => None
    end.

  (** [if result.message: logger(result.message)] *)
Definition log_message (run : GraphRun V) (message : option string) : GraphRun V :=
    match message with
    | Some m => if py_truthy_str m then _append_log run m else run
    | None => run
    end.

  (** The body of [try: while current: ...] (lines 80-93), one
      iteration per unit of fuel. *)
Fixpoint run_loop (fuel : nat) (graph : GraphDefinition V F) (current : option string)
      (run : GraphRun V) (tools : R) : LoopOutcome V R :=
    match loop_guard current with
    | None => LoopExit run tools
    | Some cur =>
        match fuel with
        | O => LoopOutOfFuel run tools current
        | S fuel' =>
            let run := set_current_node run (Some cur) in
            match nodes graph !! cur with
            | None => LoopExit (_append_log run ("Node '" +:+ cur +:+ "' not found; halting run.")) tools
            | Some handler =>
                let run := _append_log run ("Executing node '" +:+ cur +:+ "'") in
                match invoke_handler handler run tools with
                | (run, tools, Err e) => LoopRaised run tools e
                | (run, tools, Ok result) =>
                    run_loop fuel' graph (next_node result) (log_message run (message result)) tools
                end
            end
        end
    end.

Definition graph_not_registered (graph_id : string) : exc :=
    KeyError ("Graph '" +:+ graph_id +:+ "' is not registered.").

  (** [dict(initial_state or {})]: a new top-level dict. *)
Definition initial_state_copy (initial_state : option (gmap string V)) : gmap string V :=
    match initial_state with
    | Some s => s
    | None => ∅
    end.

  (** Write the run record back under its key and the registry back into
      the engine: [self.runs[run_id]] is the object the loop mutated. *)
Definition store_run (self : WorkflowEngine V F R) (run_id : string) (run : GraphRun V)
      (tools : R) : WorkflowEngine V F R :=
    mkWorkflowEngine (graphs self) (<[run_id := run]> (runs self)) tools.

  (** Lines 95-97: [run.status = "completed"; run.current_node = None;
      logger("Run completed.")]. *)
Definition complete_run (run : GraphRun V) : GraphRun V :=
    _append_log (set_current_node (set_status run Completed) None) "Run completed.".

  (** Lines 100-101: [run.status = "failed"; logger(f"Run failed: {exc}")]. *)
Definition fail_run (run : GraphRun V) (e : exc) : GraphRun V :=
    _append_log (set_status run Failed) ("Run failed: " +:+ exc_str e).

  (** [async run_graph(graph_id, initial_state)], with [run_id] the value
      [str(uuid.uuid4())] draws.  The result is [Some (Ok run)] when it
      returns, [Some (Err e)] when it raises, and [None] when the fuel is
      spent before the loop ends; the engine state is returned in every
      case, since a failed or unfinished run stays in [self.runs]. *)
Definition run_graph (fuel : nat) (run_id : string) (graph_id : string)
      (initial_state : option (gmap string V)) (self : WorkflowEngine V F R)
      : WorkflowEngine V F R * option (result (GraphRun V)) :=
    match graphs self !! graph_id with
    | None => (self, Some (Err (graph_not_registered graph_id)))
    | Some graph =>
        let run := mkGraphRun run_id graph_id (initial_state_copy initial_state) [] Running None in
        let self := mkWorkflowEngine (graphs self) (<[run_id := run]> (runs self)) (tool_registry self) in
        match run_loop fuel graph (Some (start_node graph)) run (tool_registry self) with
        | LoopExit run tools =>
            let run := complete_run run in
            (store_run self run_id run tools, Some (Ok run))
        | LoopRaised run tools e =>
            let run := fail_run run e in
            (store_run self run_id run tools, Some (Err e))
        | LoopOutOfFuel run tools _ => (store_run self run_id run tools, None)
        end
    end.
End Engine.

(** ** The engine as a state machine *)

Section EngineMachine.
Context {V F R : Type} `{!ToolFacade R F}.

(** What every record of the run table satisfies: it is stored under its
    own id, it is never ["pending"], a completed run has no current node
    and ends with ["Run completed."], a failed run ends with
    ["Run failed: ..."]. *)
Definition run_wf (rid : string) (run : GraphRun V) : Prop :=
  run_id run = rid /\ status run <> Pending /\
  (status run = Completed -> current_node run = None /\ exists l, logs run = l ++ ["Run completed."%string]) /\
  (status run = Failed -> exists l m, logs run = l ++ ["Run failed: " +:+ m]).

Definition engine_wf (self : WorkflowEngine V F R) : Prop := map_Forall run_wf (runs self).

(** The operations that change the engine: registering a graph, and
    running a graph under a fresh uuid (with any fuel: a run cut short is
    one still in flight). *)
Inductive engine_step : WorkflowEngine V F R -> WorkflowEngine V F R -> Prop :=
| step_register gid graph self :
    engine_step self (register_graph gid graph self).1
| step_run fuel rid gid init self :
    runs self !! rid = None ->
    engine_step self (run_graph fuel rid gid init self).1.

Definition terminal (s : RunStatus) : bool :=
  match s with Completed | Failed => true | _ => false end.
End EngineMachine.

(** ** Concrete scenarios

    The graphs of the spec's scenarios, on string state values and a
    [ToolRegistry] of unit tools, used to instantiate the theorems. *)
Module Demo.
#[export] Instance demo_facade : ToolFacade (ToolRegistry.ToolRegistry unit) unit :=
    ToolRegistry_facade (fun _ => true).

Definition Reg := ToolRegistry.ToolRegistry unit.
Definition Node := NodeCallable string unit.

  (** [A] returns [NodeResult("B", "did A")]; [B] returns
      [NodeResult(None, "did B")]; [B_raises] raises [ValueError("boom")];
      [Loop] always returns [NodeResult("Loop")]. *)
Definition node_A : Node := NReturn (mkNodeResult (Some "B"%string) (Some "did A"%string)).
Definition node_B : Node := NReturn (mkNodeResult None (Some "did B"%string)).
Definition node_B_raises : Node := NRaise (Exception "ValueError" "boom").
Definition node_Loop : Node := NReturn (mkNodeResult (Some "Loop"%string) None).

Definition graph_AB : GraphDefinition string unit :=
    mkGraphDefinition "A" (<["A" := node_A]> (<["B" := node_B]> ∅)).
Definition graph_AB_raises : GraphDefinition string unit :=
    mkGraphDefinition "A" (<["A" := node_A]> (<["B" := node_B_raises]> ∅)).
Definition graph_missing_start : GraphDefinition string unit :=
    mkGraphDefinition "start" (<["A" := node_A]> ∅).
Definition graph_empty_start : GraphDefinition string unit :=
    mkGraphDefinition "" (<["" := node_A]> ∅).
Definition graph_loop : GraphDefinition string unit :=
    mkGraphDefinition "Loop" (<["Loop" := node_Loop]> ∅).

  (** An engine with these graphs registered under ["ab"], ["ab_raises"],
      ["missing"], ["empty"] and ["loop"]. *)
Definition engine : WorkflowEngine string unit Reg :=
    let e := init (F:=unit) ToolRegistry.init in
    let e := (register_graph "ab" graph_AB e).1 in
    let e := (register_graph "ab_raises" graph_AB_raises e).1 in
    let e := (register_graph "missing" graph_missing_start e).1 in
    let e := (register_graph "empty" graph_empty_start e).1 in
    (register_graph "loop" graph_loop e).1.

  (** [lint] starts with [tools.get("lint")], and no tool has that name. *)
Definition node_lint : Node := NGetTool "lint" (fun _ => NReturn (mkNodeResult None None)).
Definition graph_lint : GraphDefinition string unit := mkGraphDefinition "lint" (<["lint" := node_lint]> ∅).
Definition engine_lint : WorkflowEngine string unit Reg := (register_graph "lint" graph_lint engine).1.

  (** The record of the spec's scenario: A then B, state unchanged. *)
Definition run_ab : GraphRun string :=
    mkGraphRun "r1" "ab" ∅
      ["Executing node 'A'"; "did A"; "Executing node 'B'"; "did B"; "Run completed."]
      Completed None.
End Demo.

(** ** Properties of the loop and of [run_graph] *)

Section EngineProps.
  Context {V F R : Type} `{!ToolFacade R F}.

Definition outcome_run (o : LoopOutcome V R) : GraphRun V :=
    match o with
    | LoopExit run _ | LoopRaised run _ _ | LoopOutOfFuel run _ _ => run
    end.

Lemma loop_guard_Some c cur :
    loop_guard c = Some cur -> c = Some cur /\ cur <> ""%string.
  Proof.
    destruct c as [c|]; simpl; [|done].
    destruct (py_truthy_str c) eqn:E; intros; simplify_eq.
    by apply py_truthy_str_true in E.
  Qed.

Lemma loop_guard_None c : loop_guard c = None -> py_truthy_opt c = false.
  Proof. destruct c as [c|]; simpl; [by destruct (py_truthy_str c)|done]. Qed.

Lemma log_message_header (run : GraphRun V) m :
    run_id (log_message run m) = run_id run /\ graph_id (log_message run m) = graph_id run /\
    status (log_message run m) = status run.
  Proof. by destruct m as [m|]; simpl; [destruct (py_truthy_str m)|]. Qed.

  (** The loop never touches the identity or the status of the run. *)
Lemma run_loop_keeps_header fuel (graph : GraphDefinition V F) current (run : GraphRun V) (tools : R) :
    run_id (outcome_run (run_loop fuel graph current run tools)) = run_id run /\
    graph_id (outcome_run (run_loop fuel graph current run tools)) = graph_id run /\
    status (outcome_run (run_loop fuel graph current run tools)) = status run.
  Proof.
    revert current run tools. induction fuel as [|fuel IH]; intros current run tools; simpl;
      destruct (loop_guard current) as [cur|]; try done.
    destruct (nodes graph !! cur) as [handler|]; [|done].
    unfold invoke_handler. destruct (exec_node handler _) as [e [result|x]]; [|done].
    match goal with |- context [run_loop fuel graph ?c (log_message ?r ?m) ?t] =>
      destruct (IH c (log_message r m) t) as (-> & -> & ->);
      destruct (log_message_header r m) as (-> & -> & ->) end; done.
  Qed.

    
Definition outcome_tools (o : LoopOutcome V R) : R :=
    match o with
    | LoopExit _ tools | LoopRaised _ tools _ | LoopOutOfFuel _ tools _ => tools
    end.

  (** A graph whose nodes never call [tools.register] runs with the
      registry it was given. *)
Lemma run_loop_tools_unchanged fuel (graph : GraphDefinition V F) current (run : GraphRun V)
      (tools : R) :
    (forall n h, nodes graph !! n = Some h -> no_register h) ->
    outcome_tools (run_loop fuel graph current run tools) = tools.
  Proof.
    intros Hnr. revert current run tools. induction fuel as [|fuel IH]; intros current run tools;
      simpl; destruct (loop_guard current) as [cur|]; try done.
    destruct (nodes graph !! cur) as [handler|] eqn:Hh; [|done].
    unfold invoke_handler.
    pose proof (exec_node_tools_unchanged handler
      (mkNodeEnv (state run) (logs run ++ ["Executing node '" +:+ cur +:+ "'"]) tools)
      (Hnr _ _ Hh)) as Ht.
    destruct (exec_node handler _) as [env [result|x]]; simpl in *; subst tools; [apply IH|done].
  Qed.

  (** A node that always sends the loop back to itself keeps the loop
      running: no fuel is enough. *)
Lemma run_loop_self_loop fuel (graph : GraphDefinition V F) n h (run : GraphRun V) (tools : R) :
    n <> ""%string -> nodes graph !! n = Some h ->
    (forall env, exists env' r, exec_node h env = (env', Ok r) /\ next_node r = Some n) ->
    exists run' tools', run_loop fuel graph (Some n) run tools = LoopOutOfFuel run' tools' (Some n).
  Proof.
    intros Hn Hh Hloop. revert run tools. induction fuel as [|fuel IH]; intros run tools; simpl;
      assert (Hg : py_truthy_str n = true) by (by apply py_truthy_str_true); rewrite Hg; [eauto|].
    rewrite Hh. unfold invoke_handler.
    match goal with |- context [exec_node h ?env] =>
      destruct (Hloop env) as (env' & r & -> & Hr) end.
    rewrite Hr. apply IH.
  Qed.

(** The nodes named by [P] keep the loop inside [P]: each is a
    non-empty name bound to a node that, from any environment, returns
    normally and names a next node in [P]. *)
Definition loop_closed (graph : GraphDefinition V F) (P : string -> Prop) : Prop :=
  forall cur, P cur -> cur <> ""%string /\ exists h, nodes graph !! cur = Some h /\
    forall env, exists env' r nxt, exec_node h env = (env', Ok r) /\ next_node r = Some nxt /\ P nxt.

(** A loop that enters a closed set of nodes never leaves it: no fuel is enough. *)
Lemma run_loop_closed fuel (graph : GraphDefinition V F) P cur (run : GraphRun V) (tools : R) :
  loop_closed graph P -> P cur ->
  exists run' tools' c, run_loop fuel graph (Some cur) run tools = LoopOutOfFuel run' tools' c.
Proof.
  intros Hc. revert cur run tools. induction fuel as [|fuel IH]; intros cur run tools Hp;
    destruct (Hc cur Hp) as (Hne & h & Hh & Hstep); simpl;
    rewrite (proj2 (py_truthy_str_true cur) Hne); [eauto|].
  rewrite Hh. unfold invoke_handler.
  match goal with |- context [exec_node h ?env] =>
    destruct (Hstep env) as (env' & r & nxt & -> & Hr & Hp') end.
  rewrite Hr. by apply IH.
Qed.

(** The variant of the loop at [current]: nothing left when the loop
    test fails, one iteration for a missing node, and two more than the
    rank for a node. *)
Definition loop_variant (graph : GraphDefinition V F) (rank : string -> nat) (current : option string) : nat :=
  match loop_guard current with
  | None => 0
  | Some c => match nodes graph !! c with None => 1 | Some _ => S (S (rank c)) end
  end.

(** Every node that returns normally names a next node of smaller rank,
    or ends the loop. *)
Definition rank_decreases (graph : GraphDefinition V F) (rank : string -> nat) : Prop :=
  forall cur h env env' r nxt, nodes graph !! cur = Some h -> exec_node h env = (env', Ok r) ->
    loop_guard (next_node r) = Some nxt -> is_Some (nodes graph !! nxt) -> rank nxt < rank cur.

(** With a decreasing rank the loop ends within its variant. *)
Lemma run_loop_ranked fuel (graph : GraphDefinition V F) rank current (run : GraphRun V) (tools : R) :
  rank_decreases graph rank -> loop_variant graph rank current <= fuel ->
  forall run' tools' c, run_loop fuel graph current run tools <> LoopOutOfFuel run' tools' c.
Proof.
  intros Hr. revert current run tools. induction fuel as [|fuel IH]; intros current run tools Hf;
    unfold loop_variant in Hf; simpl; destruct (loop_guard current) as [cur|] eqn:Hg; try done.
  - destruct (nodes graph !! cur); lia.
  - destruct (nodes graph !! cur) as [h|] eqn:Hh; [|done].
    unfold invoke_handler. destruct (exec_node h _) as [env' [r|x]] eqn:He; [|done].
    apply IH. unfold loop_variant.
    destruct (loop_guard (next_node r)) as [nxt|] eqn:Hn; [|lia].
    destruct (nodes graph !! nxt) eqn:Hnx; [|lia].
    pose proof (Hr cur h _ env' r nxt Hh He Hn ltac:(by eexists)). lia.
Qed.

Lemma log_message_state (run : GraphRun V) m : state (log_message run m) = state run.
Proof. by destruct m as [m|]; simpl; [destruct (py_truthy_str m)|]. Qed.

(** A graph of read-only nodes leaves the run's state as it found it. *)
Lemma run_loop_state_unchanged fuel (graph : GraphDefinition V F) current (run : GraphRun V)
    (tools : R) :
  (forall n h, nodes graph !! n = Some h -> no_set_state h) ->
  state (outcome_run (run_loop fuel graph current run tools)) = state run.
Proof.
  intros Hro. revert current run tools. induction fuel as [|fuel IH]; intros current run tools;
    simpl; destruct (loop_guard current) as [cur|]; try done.
  destruct (nodes graph !! cur) as [handler|] eqn:Hh; [|done].
  unfold invoke_handler.
  match goal with |- context [exec_node handler ?env] =>
    pose proof (exec_node_state_unchanged handler env (Hro _ _ Hh)) as Hst end.
  destruct (exec_node handler _) as [env [result|x]]; simpl in *; [|done].
  rewrite IH, log_message_state. done.
Qed.
End EngineProps.

(** Unfold [run_graph] on a registered graph id. *)
Ltac unfold_run_graph Hg := unfold run_graph, complete_run, fail_run; rewrite Hg; simpl.

(** ** The record [run_graph] stores *)

Section RunGraphRecord.
  Context {V F R : Type} `{!ToolFacade R F}.
  Implicit Types (self : WorkflowEngine V F R) (run : GraphRun V).

  (** A returning call stores its completed, cleared record under its id. *)
Lemma run_graph_ok_record fuel rid gid init self self' run :
    run_graph fuel rid gid init self = (self', Some (Ok run)) ->
    get_run rid self' = Some run /\ status run = Completed /\ current_node run = None /\ run_id run = rid.
  Proof.
    unfold run_graph, complete_run. destruct (graphs self !! gid) as [graph|]; [|done].
    pose proof (run_loop_keeps_header fuel graph (Some (start_node graph))
      (mkGraphRun rid gid (initial_state_copy init) [] Running None) (tool_registry self)) as Hh.
    destruct (run_loop _ _ _ _ _); simpl in Hh; intros; simplify_eq.
    unfold get_run. simpl. rewrite lookup_insert_eq. destruct Hh as (-> & _). by split_and!.
  Qed.

  (** A call that raises [e] on a registered graph stores a failed record
      under its id whose last line describes [e]. *)
Lemma run_graph_err_record fuel rid gid init self self' e :
    is_Some (graphs self !! gid) ->
    run_graph fuel rid gid init self = (self', Some (Err e)) ->
    exists run, get_run rid self' = Some run /\ status run = Failed /\ run_id run = rid /\
      exists l, logs run = l ++ ["Run failed: " +:+ exc_str e].
  Proof.
    intros [graph Hg]. unfold run_graph, fail_run. rewrite Hg.
    pose proof (run_loop_keeps_header fuel graph (Some (start_node graph))
      (mkGraphRun rid gid (initial_state_copy init) [] Running None) (tool_registry self)) as Hh.
    destruct (run_loop _ _ _ _ _); simpl in Hh; intros; simplify_eq.
    destruct Hh as (Hid & _). eexists. unfold get_run. simpl. rewrite lookup_insert_eq.
    split_and!; [reflexivity|reflexivity|exact Hid|by eexists].
  Qed.
End RunGraphRecord.

(** ** What [run_graph] returns *)

Section RunGraph.
  Context {V F R : Type} `{!ToolFacade R F}.
  Implicit Types (self : WorkflowEngine V F R) (graph : GraphDefinition V F) (run : GraphRun V).

  (** C1. A call of [run_graph] that returns gives a run whose status is
      ["completed"], whose [current_node] is cleared, whose last log line
      is ["Run completed."], and which is the record [get_run] finds under
      the new run id. *)
Theorem run_graph_completed fuel rid gid init self self' run :
    run_graph fuel rid gid init self = (self', Some (Ok run)) ->
    status run = Completed /\ current_node run = None /\
    run_id run = rid /\ graph_id run = gid /\
    get_run rid self' = Some run /\
    exists l, logs run = l ++ ["Run completed."%string].
  Proof.
    unfold run_graph, complete_run, fail_run. destruct (graphs self !! gid) as [graph|]; [|done].
    pose proof (run_loop_keeps_header fuel graph (Some (start_node graph))
      (mkGraphRun rid gid (initial_state_copy init) [] Running None) (tool_registry self)) as Hh.
    destruct (run_loop _ _ _ _ _) as [run0 tools|run0 tools e|run0 tools c]; simpl in Hh;
      intros; simplify_eq; simpl.
    destruct Hh as (-> & -> & _). unfold get_run. simpl. rewrite lookup_insert_eq.
    split_and!; eauto.
  Qed.

    (** C2. Running an unregistered graph raises [KeyError("Graph '<id>' is
      not registered.")] before any run record is created: the engine is
      left unchanged. *)
Theorem run_graph_unregistered fuel rid gid init self :
    has_graph gid self = false ->
    run_graph fuel rid gid init self =
      (self, Some (Err (KeyError ("Graph '" +:+ gid +:+ "' is not registered.")))).
  Proof.
    unfold has_graph, run_graph. intros H%bool_decide_eq_false.
    destruct (graphs self !! gid); [destruct H; eauto | done].
  Qed.

  (** C7. A graph whose start node is not one of its nodes: the run completes
      at once, with the diagnostic line and the completion line, and no
      node is invoked. *)
Theorem run_graph_missing_start fuel rid gid init self graph :
    graphs self !! gid = Some graph ->
    start_node graph <> ""%string -> nodes graph !! start_node graph = None -> 1 <= fuel ->
    let run := mkGraphRun rid gid (initial_state_copy init)
      ["Node '" +:+ start_node graph +:+ "' not found; halting run."; "Run completed."]
      Completed None in
    run_graph fuel rid gid init self =
      (mkWorkflowEngine (graphs self) (<[rid := run]> (runs self)) (tool_registry self),
       Some (Ok run)).
  Proof.
    intros Hg Hs Hn Hf. unfold_run_graph Hg.
    destruct fuel as [|fuel]; [lia|]. simpl.
    assert (Ht : py_truthy_str (start_node graph) = true) by (by apply py_truthy_str_true).
    rewrite Ht, Hn. unfold store_run. simpl. by rewrite insert_insert_eq.
  Qed.

  (** C8. A node that looks up a tool nobody registered: its
      [tools.get(name)] raises the registry's [KeyError] out of the node,
      and [run_graph] re-raises it after storing the failed record, which
      still names the node and whose log is the node's line followed by
      ["Run failed: "] and [str()] of that [KeyError].  Proved against the
      facade's laws, for any registry that keeps them. *)
Theorem run_graph_missing_tool `{!ToolFacadeLaws R F} fuel rid gid init self graph name k :
    graphs self !! gid = Some graph -> start_node graph <> ""%string ->
    nodes graph !! start_node graph = Some (NGetTool name k) ->
    facade_try_get name (tool_registry self) = None -> 1 <= fuel ->
    let run := mkGraphRun rid gid (initial_state_copy init)
      ["Executing node '" +:+ start_node graph +:+ "'"; "Run failed: " +:+ exc_str (tool_not_registered name)]
      Failed (Some (start_node graph)) in
    run_graph fuel rid gid init self =
      (mkWorkflowEngine (graphs self) (<[rid := run]> (runs self)) (tool_registry self),
       Some (Err (tool_not_registered name))).
  Proof.
    intros Hg Hs Hn Ht Hf. unfold_run_graph Hg.
    destruct fuel as [|fuel]; [lia|]. simpl.
    rewrite (proj2 (py_truthy_str_true _) Hs), Hn. unfold invoke_handler. simpl.
    rewrite (facade_get_absent _ _ Ht). unfold store_run. simpl. by rewrite insert_insert_eq.
  Qed.

  (** C9. A graph whose start node is the empty string never enters the loop
      ([while current:] is false), even when [""] is one of its nodes:
      the run completes with the completion line only. *)
Theorem run_graph_empty_start fuel rid gid init self graph :
    graphs self !! gid = Some graph -> start_node graph = ""%string ->
    let run := mkGraphRun rid gid (initial_state_copy init) ["Run completed."] Completed None in
    run_graph fuel rid gid init self =
      (mkWorkflowEngine (graphs self) (<[rid := run]> (runs self)) (tool_registry self),
       Some (Ok run)).
  Proof.
    intros Hg Hs. unfold_run_graph Hg. rewrite Hs.
    destruct fuel; simpl; unfold store_run; simpl; by rewrite insert_insert_eq.
  Qed.


  (** C3. Termination (spec 4.3 asks that branching and looping graphs
      run): when every node that returns names either no node or a node
      of smaller rank than its own, [run_graph] returns or raises within
      [rank start + 2] iterations: [current = result.next_node] moves the
      loop down the rank at every visit. *)
Theorem run_graph_terminates_ranked fuel rid gid init self graph rank :
    graphs self !! gid = Some graph -> rank_decreases graph rank ->
    rank (start_node graph) + 2 <= fuel ->
    is_Some (run_graph fuel rid gid init self).2.
  Proof.
    intros Hg Hr Hf. unfold_run_graph Hg.
    pose proof (run_loop_ranked fuel graph rank (Some (start_node graph))
      (mkGraphRun rid gid (initial_state_copy init) [] Running None) (tool_registry self) Hr) as Ht.
    destruct (run_loop _ _ _ _ _) as [| |run' tools' c]; simpl; [by eexists|by eexists|].
    exfalso. refine (Ht _ run' tools' c eq_refl). unfold loop_variant.
    destruct (loop_guard _) as [c0|] eqn:E; [apply loop_guard_Some in E as [[= <-] _]; destruct (nodes graph !! _)|]; lia.
  Qed.

  (** C11. No iteration cap: when the start node lies in a set of nodes
      that the loop can never leave (each is bound to a node that returns
      normally and names a next node of the set), [run_graph] does not
      return whatever the fuel, and every fuel leaves a record still
      ["running"]. *)
Theorem run_graph_closed_runs_forever fuel rid gid init self graph P :
    graphs self !! gid = Some graph -> loop_closed graph P -> P (start_node graph) ->
    (run_graph fuel rid gid init self).2 = None /\
    exists run, get_run rid (run_graph fuel rid gid init self).1 = Some run /\ status run = Running.
  Proof.
    intros Hg Hc Hp. unfold run_graph. rewrite Hg.
    pose proof (run_loop_keeps_header fuel graph (Some (start_node graph))
      (mkGraphRun rid gid (initial_state_copy init) [] Running None) (tool_registry self)) as Hh.
    destruct (run_loop_closed fuel graph P (start_node graph)
      (mkGraphRun rid gid (initial_state_copy init) [] Running None) (tool_registry self) Hc Hp)
      as (run' & tools' & c & Hl).
    cbn [tool_registry]. rewrite Hl in Hh |- *. simpl in Hh. split; [done|].
    exists run'. unfold get_run. simpl. rewrite lookup_insert_eq. split; [done|apply Hh].
  Qed.

    (** C13. [run_graph] writes only its own entry of the run table and never
      changes the graph table. *)
Theorem run_graph_isolation fuel rid rid' gid init self :
    rid' <> rid ->
    get_run rid' (run_graph fuel rid gid init self).1 = get_run rid' self /\
    graphs (run_graph fuel rid gid init self).1 = graphs self.
  Proof.
    intros Hne. unfold run_graph, get_run.
    destruct (graphs self !! gid) as [graph|]; [|done].
    destruct (run_loop _ _ _ _ _); simpl; rewrite !lookup_insert_ne; done.
  Qed.

  (** C16. The shared tool registry is changed by a run only through its
      nodes: if no node calls [tools.register], it is left as it was. *)
Theorem run_graph_registry_unchanged fuel rid gid init self graph :
    graphs self !! gid = Some graph ->
    (forall n h, nodes graph !! n = Some h -> no_register h) ->
    tool_registry (run_graph fuel rid gid init self).1 = tool_registry self.
  Proof.
    intros Hg Hnr. unfold_run_graph Hg.
    pose proof (run_loop_tools_unchanged fuel graph (Some (start_node graph))
      (mkGraphRun rid gid (initial_state_copy init) [] Running None) (tool_registry self) Hnr) as Ht.
    by destruct (run_loop _ _ _ _ _); simpl in *.
  Qed.

(** C14. Invoking a node through [_logger] only appends to the run's
    log: the lines it adds, the state it leaves, the registry and the
    result are those of the same invocation on an empty log, and the
    run's id, status and current node are untouched. *)
Theorem invoke_handler_appends (h : NodeCallable V F) run (tools : R) :
  let '(run', tools', r) := invoke_handler h run tools in
  let '(run0, tools0, r0) := invoke_handler h
      (mkGraphRun (run_id run) (graph_id run) (state run) [] (status run) (current_node run)) tools in
  logs run' = logs run ++ logs run0 /\ state run' = state run0 /\ tools' = tools0 /\ r = r0 /\
  run_id run' = run_id run /\ status run' = status run /\ current_node run' = current_node run.
Proof.
  unfold invoke_handler. simpl. rewrite exec_node_frame.
  destruct (exec_node h _) as [[st l t] r]. simpl. by split_and!.
Qed.

(** C15. The state a run leaves equals its initial state when no node
    of the graph writes the state dict, whether the run completes, fails
    or is still in flight: the engine makes no change of its own. *)
Theorem run_graph_read_only_state fuel rid gid init self graph run :
  graphs self !! gid = Some graph ->
  (forall n h, nodes graph !! n = Some h -> no_set_state h) ->
  get_run rid (run_graph fuel rid gid init self).1 = Some run ->
  state run = initial_state_copy init.
Proof.
  intros Hg Hro. unfold_run_graph Hg.
  pose proof (run_loop_state_unchanged fuel graph (Some (start_node graph))
    (mkGraphRun rid gid (initial_state_copy init) [] Running None) (tool_registry self) Hro) as Hst.
  unfold get_run. destruct (run_loop _ _ _ _ _); simpl in *; rewrite lookup_insert_eq;
    intros [= <-]; done.
Qed.
End RunGraph.

(** ** Invariants of the engine state machine *)

Section EngineInvariants.
Context {V F R : Type} `{!ToolFacade R F}.
Implicit Types (self : WorkflowEngine V F R).

Lemma register_graph_runs gid graph self : runs (register_graph gid graph self).1 = runs self.
Proof. done. Qed.

Lemma run_graph_preserves_wf fuel rid gid init self :
  engine_wf self -> engine_wf (run_graph fuel rid gid init self).1.
Proof.
  unfold engine_wf, run_graph, complete_run, fail_run. intros Hwf. destruct (graphs self !! gid) as [graph|]; [|done].
  pose proof (run_loop_keeps_header fuel graph (Some (start_node graph))
    (mkGraphRun rid gid (initial_state_copy init) [] Running None) (tool_registry self)) as Hh.
  destruct (run_loop _ _ _ _ _) as [run0 tools|run0 tools e|run0 tools c]; simpl in *;
    destruct Hh as (Hid & _ & Hst); unfold store_run; simpl; rewrite insert_insert_eq;
    apply map_Forall_insert_2; try done; unfold run_wf; simpl; rewrite ?Hid, ?Hst;
    split_and!; try done; intros _; eauto.
Qed.

(** C12. Every engine reachable from [__init__] by registrations and runs
    keeps a well-formed run table. *)
Theorem engine_wf_reachable (tools : R) self :
  rtc engine_step (init tools) self -> engine_wf self.
Proof.
  intros Hr. remember (init tools) as s0 eqn:E.
  assert (H0 : engine_wf s0) by (subst; apply map_Forall_empty).
  clear E. induction Hr as [s|s1 s2 s3 Hs Hr IH]; [done|]. apply IH.
  destruct Hs as [gid graph self|fuel rid gid init self _].
  - unfold engine_wf. by rewrite register_graph_runs.
  - by apply run_graph_preserves_wf.
Qed.

End EngineInvariants.

(** ** Witnesses: the theorems at the scenarios of [Demo] *)

Section Witnesses.
  Import Demo.

Lemma run_graph_completed_witness :
    run_graph 5 "r1" "ab" None engine = ((run_graph 5 "r1" "ab" None engine).1, Some (Ok run_ab)) /\
    (status run_ab = Completed /\ current_node run_ab = None /\
     run_id run_ab = "r1"%string /\ graph_id run_ab = "ab"%string /\
     get_run "r1" (run_graph 5 "r1" "ab" None engine).1 = Some run_ab /\
     exists l, logs run_ab = l ++ ["Run completed."%string]).
  Proof.
    assert (H : run_graph 5 "r1" "ab" None engine =
                ((run_graph 5 "r1" "ab" None engine).1, Some (Ok run_ab))) by (vm_compute; reflexivity).
    split; [exact H | exact (run_graph_completed _ _ _ _ _ _ _ H)].
  Defined.

Lemma run_graph_unregistered_witness :
    has_graph "nope" engine = false /\
    run_graph 5 "r3" "nope" None engine =
      (engine, Some (Err (KeyError ("Graph '" +:+ "nope" +:+ "' is not registered.")))).
  Proof.
    assert (H : has_graph "nope" engine = false) by (vm_compute; reflexivity).
    split; [exact H | exact (run_graph_unregistered 5 "r3" "nope" None engine H)].
  Defined.

Lemma run_graph_missing_start_witness :
    run_graph 5 "r4" "missing" None engine =
      (mkWorkflowEngine (graphs engine)
         (<["r4" := mkGraphRun "r4" "missing" ∅
                      ["Node 'start' not found; halting run."; "Run completed."] Completed None]>
            (runs engine)) (tool_registry engine),
       Some (Ok (mkGraphRun "r4" "missing" ∅
                   ["Node 'start' not found; halting run."; "Run completed."] Completed None))).
  Proof.
    apply (run_graph_missing_start 5 "r4" "missing" None engine graph_missing_start);
      [vm_compute; reflexivity | discriminate | vm_compute; reflexivity | lia].
  Defined.

Lemma run_graph_empty_start_witness :
    run_graph 5 "r5" "empty" None engine =
      (mkWorkflowEngine (graphs engine)
         (<["r5" := mkGraphRun "r5" "empty" ∅ ["Run completed."] Completed None]> (runs engine))
         (tool_registry engine),
       Some (Ok (mkGraphRun "r5" "empty" ∅ ["Run completed."] Completed None))).
  Proof.
    apply (run_graph_empty_start 5 "r5" "empty" None engine graph_empty_start);
      vm_compute; reflexivity.
  Defined.


(** In [graph_AB], [A] (rank 1) names [B] (rank 0), and [B] ends the loop. *)
Definition rank_ab (c : string) : nat := if String.eqb c "A" then 1 else 0.

Lemma rank_ab_decreases : rank_decreases graph_AB rank_ab.
  Proof.
    intros cur h env env' r nxt Hh He Hg _. unfold graph_AB in Hh. cbn [nodes] in Hh.
    apply pd_lookup_insert_Some in Hh as [[<- <-]|[_ Hh]].
    - simpl in He. simplify_eq/=. vm_compute. lia.
    - apply pd_lookup_insert_Some in Hh as [[<- <-]|[_ Hh]]; [|done].
      simpl in He. simplify_eq/=.
  Qed.

Lemma run_graph_terminates_ranked_witness :
    graphs engine !! "ab"%string = Some graph_AB /\ rank_decreases graph_AB rank_ab /\
    rank_ab (start_node graph_AB) + 2 <= 3 /\ is_Some (run_graph 3 "r1" "ab" None engine).2.
  Proof.
    assert (Hg : graphs engine !! "ab"%string = Some graph_AB) by (vm_compute; reflexivity).
    assert (Hf : rank_ab (start_node graph_AB) + 2 <= 3) by (vm_compute; lia).
    split_and!; [exact Hg|exact rank_ab_decreases|exact Hf|].
    exact (run_graph_terminates_ranked 3 "r1" "ab" None engine graph_AB rank_ab Hg rank_ab_decreases Hf).
  Defined.

Lemma loop_closed_graph_loop : loop_closed graph_loop (fun c => c = "Loop"%string).
  Proof.
    intros cur ->. split; [discriminate|]. exists node_Loop. split; [reflexivity|].
    intros env. eexists _, _, _. split; [reflexivity|]. split; reflexivity.
  Qed.

Lemma run_graph_closed_runs_forever_witness :
    graphs engine !! "loop"%string = Some graph_loop /\ loop_closed graph_loop (fun c => c = "Loop"%string) /\
    (run_graph 100 "r6" "loop" None engine).2 = None /\
    exists run, get_run "r6" (run_graph 100 "r6" "loop" None engine).1 = Some run /\ status run = Running.
  Proof.
    assert (Hg : graphs engine !! "loop"%string = Some graph_loop) by (vm_compute; reflexivity).
    split_and!; [exact Hg|exact loop_closed_graph_loop|..];
      [apply (proj1 (run_graph_closed_runs_forever 100 "r6" "loop" None engine graph_loop _ Hg loop_closed_graph_loop eq_refl))
      |apply (proj2 (run_graph_closed_runs_forever 100 "r6" "loop" None engine graph_loop _ Hg loop_closed_graph_loop eq_refl))].
  Defined.

Lemma run_graph_missing_tool_witness :
    run_graph 5 "r7" "lint" None engine_lint =
      (mkWorkflowEngine (graphs engine_lint)
         (<["r7" := mkGraphRun "r7" "lint" ∅
            ["Executing node 'lint'"; "Run failed: " +:+ exc_str (tool_not_registered "lint")]
            Failed (Some "lint"%string)]> (runs engine_lint)) (tool_registry engine_lint),
       Some (Err (tool_not_registered "lint"))).
  Proof.
    apply (run_graph_missing_tool 5 "r7" "lint" None engine_lint graph_lint "lint"
             (fun _ => NReturn (mkNodeResult None None)));
      [vm_compute; reflexivity | discriminate | vm_compute; reflexivity | vm_compute; reflexivity | lia].
  Defined.

Lemma run_graph_isolation_witness :
    get_run "r0" (run_graph 5 "r1" "ab" None engine).1 = get_run "r0" engine /\
    graphs (run_graph 5 "r1" "ab" None engine).1 = graphs engine.
  Proof. apply run_graph_isolation. discriminate. Defined.

Lemma run_graph_registry_unchanged_witness :
    tool_registry (run_graph 5 "r1" "ab" None engine).1 = tool_registry engine.
  Proof.
    apply (run_graph_registry_unchanged 5 "r1" "ab" None engine graph_AB); [vm_compute; reflexivity|].
    intros n h Hh. refine (pd_lookup_Forall _ _ _ _ _ Hh).
    vm_compute. repeat constructor.
  Defined.
Lemma demo_engine_reachable :
  rtc engine_step (init (F:=unit) ToolRegistry.init) (run_graph 5 "r1" "ab" None engine).1.
Proof.
  apply rtc_r with engine; [|apply step_run; vm_compute; reflexivity].
  unfold engine. cbv zeta.
  do 5 (eapply rtc_r; [|apply step_register]). apply rtc_refl.
Qed.

Lemma engine_wf_reachable_witness :
  rtc engine_step (init (F:=unit) ToolRegistry.init) (run_graph 5 "r1" "ab" None engine).1 /\
  engine_wf (run_graph 5 "r1" "ab" None engine).1.
Proof.
  split; [exact demo_engine_reachable | exact (engine_wf_reachable _ _ demo_engine_reachable)].
Defined.

Lemma run_graph_read_only_state_witness :
  graphs engine !! "ab"%string = Some graph_AB /\
  get_run "r1" (run_graph 5 "r1" "ab" None engine).1 = Some run_ab /\
  state run_ab = initial_state_copy None.
Proof.
  assert (Hg : graphs engine !! "ab"%string = Some graph_AB) by (vm_compute; reflexivity).
  assert (Hr : get_run "r1" (run_graph 5 "r1" "ab" None engine).1 = Some run_ab) by (vm_compute; reflexivity).
  split_and!; [exact Hg|exact Hr|].
  apply (run_graph_read_only_state 5 "r1" "ab" None engine graph_AB run_ab Hg); [|exact Hr].
  intros n h Hh. refine (pd_lookup_Forall _ _ _ _ _ Hh).
  vm_compute. repeat constructor.
Defined.
End Witnesses.
