(* ===== verification/Trace.v ===== *)
(** * A whole run as a trace of node visits

    [Semantics] describes one iteration of the [while current:] loop of
    [run_graph] ([src/engine.py] lines 80-93).  This file describes a
    whole run from the outside: the sequence of nodes the loop visits,
    with what each logged through [logger] and the [NodeResult] it
    returned.  [visits] threads the state dict and the shared registry
    through the visits, the first one at the start node and each next
    one at the [next_node] of the previous result.  The log of a
    completed run is then exactly the blocks of its visits
    ([visit_lines]), the diagnostic of a missing node if the loop ended on
    one, and ["Run completed."]; the log of a failed run is the blocks of
    its visits, then the line and the lines of the node that raised, then
    ["Run failed: ..."].  Both are proved from [run_loop] directly, and
    [run_graph_trace_complete] and [run_graph_failed_trace_complete]
    give the converse: every trace that ends the loop, normally or in a
    node that raises, is what [run_graph] computes with enough fuel. *)

From stdpp Require Import base gmap strings list relations.
From Stdlib Require Import String.
From S2P Require Import Prelude PyStr PyDict Registry Node Engine Semantics.

Open Scope engine_scope.

(** One iteration seen from outside: the node visited, the lines it
    logged itself, and the [NodeResult] it returned. *)
Record Visit := mkVisit {
  visit_node : string;
  visit_logs : list string;
  visit_result : NodeResult
}.

(** The block of log lines one visit adds (lines 87-91). *)
Definition visit_lines (v : Visit) : list string :=
  executing_line (visit_node v) :: visit_logs v ++ message_lines (message (visit_result v)).

Definition trace_lines (vs : list Visit) : list string := mjoin (map visit_lines vs).

Section Visits.
Context {V F R : Type} `{!ToolFacade R F}.
Context (graph : GraphDefinition V F).

(** [visits current st t vs current' st' t']: from the loop test on
    [current] with state [st] and registry [t], the loop invokes the
    nodes of [vs] in order, each returning normally, and comes back to
    the loop test on [current'] with state [st'] and registry [t']. *)
Inductive visits : option string -> gmap string V -> R -> list Visit ->
    option string -> gmap string V -> R -> Prop :=
| visits_nil current st t : visits current st t [] current st t
| visits_cons current cur h st t st1 l1 t1 r vs current' st' t' :
    loop_guard current = Some cur ->
    nodes graph !! cur = Some h ->
    exec_node h (mkNodeEnv st [] t) = (mkNodeEnv st1 l1 t1, Ok r) ->
    visits (next_node r) st1 t1 vs current' st' t' ->
    visits current st t (mkVisit cur l1 r :: vs) current' st' t'.

(** The loop ends normally at [current]: the test fails ([while
    current:]) or the node is missing ([break], line 85). *)
Definition loop_exits (current : option string) : Prop :=
  match loop_guard current with
  | Some cur => nodes graph !! cur = None
  | None => True
  end.

(** The line a normal end of the loop adds: the diagnostic of line 84
    when it ends on a missing node. *)
Definition exit_lines (current : option string) : list string :=
  match loop_guard current with
  | Some cur => [missing_line cur]
  | None => []
  end.

(** The loop raises at [current]: the node [cur] is there, and run from
    state [st] and registry [t] it logs [l] and raises [e], leaving state
    [st'] and registry [t']. *)
Definition loop_raises (current : option string) (st : gmap string V) (t : R)
    (cur : string) (l : list string) (st' : gmap string V) (t' : R) (e : exc) : Prop :=
  loop_guard current = Some cur /\
  exists h, nodes graph !! cur = Some h /\ exec_node h (mkNodeEnv st [] t) = (mkNodeEnv st' l t', Err e).
End Visits.


(** A graph whose nodes log, write the state and leave the graph: [fetch]
    logs ["fetching"], sets [state = {"k": "v"}] and returns
    [NodeResult("report", "")] (an empty message, not logged); [report]
    logs ["reporting"] and returns [NodeResult("gone", "done")], and
    ["gone"] is not a node.  In [graph_fr_raises], [report] logs
    ["partial"] and raises [ValueError("bad")]. *)
Module TraceDemo.
Import Demo.

Definition node_fetch : Node :=
  NLog "fetching" (NSetState {[ "k" := "v" ]} (NReturn (mkNodeResult (Some "report"%string) (Some ""%string)))).
Definition node_report : Node :=
  NLog "reporting" (NReturn (mkNodeResult (Some "gone"%string) (Some "done"%string))).
Definition node_report_raises : Node :=
  NLog "partial" (NRaise (Exception "ValueError" "bad")).

Definition graph_fr : GraphDefinition string unit :=
  mkGraphDefinition "fetch" (<["fetch" := node_fetch]> (<["report" := node_report]> ∅)).
Definition graph_fr_raises : GraphDefinition string unit :=
  mkGraphDefinition "fetch" (<["fetch" := node_fetch]> (<["report" := node_report_raises]> ∅)).

Definition trace_engine : WorkflowEngine string unit Reg :=
  let e := init (F:=unit) ToolRegistry.init in
  let e := (register_graph "fr" graph_fr e).1 in
  (register_graph "fr_raises" graph_fr_raises e).1.

Definition run_fr : GraphRun string :=
  mkGraphRun "r1" "fr" {[ "k" := "v" ]}
    ["Executing node 'fetch'"; "fetching"; "Executing node 'report'"; "reporting"; "done";
     "Node 'gone' not found; halting run."; "Run completed."] Completed None.
End TraceDemo.

(** ** The loop computes traces *)

Section LoopTrace.
Context {V F R : Type} `{!ToolFacade R F}.
Context (graph : GraphDefinition V F).
Implicit Types (run : GraphRun V) (tools : R).

Lemma trace_lines_cons v vs : trace_lines (v :: vs) = visit_lines v ++ trace_lines vs.
Proof. done. Qed.

(** [if result.message: logger(result.message)] appends [message_lines]. *)
Lemma log_message_fields run m :
  log_message run m =
  mkGraphRun (run_id run) (graph_id run) (state run) (logs run ++ message_lines m) (status run) (current_node run).
Proof.
  destruct run, m as [s|]; simpl; [|by rewrite app_nil_r].
  by destruct (py_truthy_str s); simpl; rewrite ?app_nil_r.
Qed.

(** The handler call seen through [exec_node] from an empty log. *)
Lemma invoke_handler_frame (h : NodeCallable V F) run tools :
  exists st1 l1 t1 r,
    exec_node h (mkNodeEnv (state run) [] tools) = (mkNodeEnv st1 l1 t1, r) /\
    invoke_handler h run tools =
      (mkGraphRun (run_id run) (graph_id run) st1 (logs run ++ l1) (status run) (current_node run), t1, r).
Proof.
  unfold invoke_handler. rewrite (exec_node_frame h (state run) (logs run)).
  destruct (exec_node h _) as [[st1 l1 t1] r]. by exists st1, l1, t1, r.
Qed.

(** What [run_loop] computes, by how it ends: a normal end is a trace
    of visits and then a failing loop test or a missing node; a raise is
    a trace of visits and then a node that raises. *)
Lemma run_loop_trace fuel current run tools :
  match run_loop fuel graph current run tools with
  | LoopExit run' t' =>
      exists vs current', visits graph current (state run) tools vs current' (state run') t' /\
        loop_exits graph current' /\ logs run' = logs run ++ trace_lines vs ++ exit_lines current' /\
        run_id run' = run_id run /\ graph_id run' = graph_id run /\ status run' = status run
  | LoopRaised run' t' e =>
      exists vs current' st t cur l, visits graph current (state run) tools vs current' st t /\
        loop_raises graph current' st t cur l (state run') t' e /\
        logs run' = logs run ++ trace_lines vs ++ executing_line cur :: l /\ current_node run' = Some cur /\
        run_id run' = run_id run /\ graph_id run' = graph_id run /\ status run' = status run
  | LoopOutOfFuel _ _ _ => True
  end.
Proof.
  revert current run tools. induction fuel as [|fuel IH]; intros current run tools; simpl;
    destruct (loop_guard current) as [cur|] eqn:Hg.
  - done.
  - exists [], current. split_and!; [constructor|by unfold loop_exits; rewrite Hg|
      by unfold exit_lines; rewrite Hg, !app_nil_r|done..].
  - destruct (nodes graph !! cur) as [h|] eqn:Hh.
    + destruct (invoke_handler_frame h (_append_log (set_current_node run (Some cur))
        ("Executing node '" +:+ cur +:+ "'")) tools) as (st1 & l1 & t1 & [r|e] & He & ->).
      * specialize (IH (next_node r) (log_message (mkGraphRun (run_id run) (graph_id run) st1
          ((logs run ++ ["Executing node '" +:+ cur +:+ "'"]) ++ l1) (status run) (Some cur)) (message r)) t1).
        rewrite log_message_fields in IH |- *. simpl in IH |- *.
        destruct (run_loop fuel graph _ _ _); [| |done].
        -- destruct IH as (vs & current' & Hv & Hx & Hl & ? & ? & ?).
           exists (mkVisit cur l1 r :: vs), current'. split_and!; [by eapply visits_cons; [exact Hg|exact Hh|exact He|exact Hv]|done| |done..].
           rewrite Hl, trace_lines_cons. unfold visit_lines, executing_line. simpl.
           by rewrite <- !app_assoc.
        -- destruct IH as (vs & current' & st & t & cur' & l & Hv & Hr & Hl & ? & ? & ? & ?).
           exists (mkVisit cur l1 r :: vs), current', st, t, cur', l. split_and!; [by eapply visits_cons; [exact Hg|exact Hh|exact He|exact Hv]|done| |done..].
           rewrite Hl, trace_lines_cons. unfold visit_lines, executing_line. simpl.
           by rewrite <- !app_assoc.
      * exists [], current, (state run), tools, cur, l1.
        split_and!; [constructor|split; [done|by exists h]|by simpl; rewrite <- app_assoc|done..].
    + exists [], current. split_and!; [constructor|by unfold loop_exits; rewrite Hg|
        by unfold exit_lines; rewrite Hg|done..].
  - exists [], current. split_and!; [constructor|by unfold loop_exits; rewrite Hg|
      by unfold exit_lines; rewrite Hg, !app_nil_r|done..].
Qed.

(** Conversely, [run_loop] replays a trace of visits: one unit of fuel
    per visit brings it back to the loop test where the trace ends, with
    the visits' state, registry and log lines. *)
Lemma visits_run_loop_prefix vs current st t current' st' t' :
  visits graph current st t vs current' st' t' ->
  forall fuel run, state run = st -> List.length vs <= fuel ->
  exists run', run_loop fuel graph current run t = run_loop (fuel - List.length vs) graph current' run' t' /\
    state run' = st' /\ logs run' = logs run ++ trace_lines vs /\
    run_id run' = run_id run /\ graph_id run' = graph_id run /\ status run' = status run.
Proof.
  induction 1 as [current st t|current cur h st t st1 l1 t1 r vs current' st' t' Hg Hh He Hv IH];
    intros fuel run Hst Hf; simpl in Hf.
  - exists run. rewrite Nat.sub_0_r. split_and!; [done|done| |done..]. by rewrite app_nil_r.
  - destruct fuel as [|fuel]; [lia|]. simpl. rewrite Hg, Hh.
    destruct (invoke_handler_frame h (_append_log (set_current_node run (Some cur))
      ("Executing node '" +:+ cur +:+ "'")) t) as (st2 & l2 & t2 & r2 & He2 & ->).
    simpl in He2. rewrite Hst, He in He2. injection He2 as <- <- <- <-.
    destruct (IH fuel (log_message (mkGraphRun (run_id run) (graph_id run) st1
      ((logs run ++ ["Executing node '" +:+ cur +:+ "'"]) ++ l1) (status run) (Some cur)) (message r)))
      as (run' & Hrun & Hst' & Hl & ? & ? & ?); [by rewrite log_message_fields|lia|].
    rewrite log_message_fields in *. simpl in *. exists run'. split_and!; [exact Hrun|done| |done..].
    rewrite Hl. unfold trace_lines in *. unfold visit_lines, executing_line. simpl.
    by rewrite <- !app_assoc.
Qed.

(** A trace of visits that ends the loop normally is what [run_loop]
    computes, with one unit of fuel per visit and one for the last loop
    test. *)
Lemma visits_run_loop vs current st t current' st' t' :
  visits graph current st t vs current' st' t' -> loop_exits graph current' ->
  forall fuel run, state run = st -> List.length vs + 1 <= fuel ->
  exists run', run_loop fuel graph current run t = LoopExit run' t' /\ state run' = st' /\
    logs run' = logs run ++ trace_lines vs ++ exit_lines current' /\
    run_id run' = run_id run /\ graph_id run' = graph_id run /\ status run' = status run.
Proof.
  intros Hv Hx fuel run Hst Hf.
  destruct (visits_run_loop_prefix _ _ _ _ _ _ _ Hv fuel run Hst ltac:(lia)) as (run1 & -> & Hst1 & Hl & ? & ? & ?).
  destruct (fuel - List.length vs) as [|f] eqn:Hfuel; [lia|].
  unfold loop_exits in Hx. unfold exit_lines. simpl. destruct (loop_guard current') as [cur|]; [rewrite Hx|];
    eexists; (split; [reflexivity|]); simpl; rewrite Hl, <- ?app_assoc, ?app_nil_r; by split_and!.
Qed.

(** A trace of visits followed by a node that raises is what
    [run_loop] computes, with one unit of fuel per visit and one for
    the raising node. *)
Lemma visits_run_loop_raise vs current st t current' st1 t1 cur l st' t' e :
  visits graph current st t vs current' st1 t1 -> loop_raises graph current' st1 t1 cur l st' t' e ->
  forall fuel run, state run = st -> List.length vs + 1 <= fuel ->
  exists run', run_loop fuel graph current run t = LoopRaised run' t' e /\ state run' = st' /\
    logs run' = logs run ++ trace_lines vs ++ executing_line cur :: l /\ current_node run' = Some cur /\
    run_id run' = run_id run /\ graph_id run' = graph_id run /\ status run' = status run.
Proof.
  intros Hv [Hg (h & Hh & He)] fuel run Hst Hf.
  destruct (visits_run_loop_prefix _ _ _ _ _ _ _ Hv fuel run Hst ltac:(lia)) as (run1 & -> & Hst1 & Hl & ? & ? & ?).
  destruct (fuel - List.length vs) as [|f] eqn:Hfuel; [lia|]. simpl. rewrite Hg, Hh.
  destruct (invoke_handler_frame h (_append_log (set_current_node run1 (Some cur))
    ("Executing node '" +:+ cur +:+ "'")) t1) as (st2 & l2 & t2 & r2 & He2 & ->).
  simpl in He2. rewrite Hst1, He in He2. injection He2 as <- <- <- <-.
  eexists. split; [reflexivity|]. simpl. rewrite Hl, <- !app_assoc. by split_and!.
Qed.

(** The trace of a run that ends normally is unique. *)
Lemma visits_exits_det vs1 vs2 current st t c1 st1 t1 c2 st2 t2 :
  visits graph current st t vs1 c1 st1 t1 -> loop_exits graph c1 ->
  visits graph current st t vs2 c2 st2 t2 -> loop_exits graph c2 ->
  vs1 = vs2 /\ c1 = c2 /\ st1 = st2 /\ t1 = t2.
Proof.
  intros Hv1 Hx1. revert vs2 c2 st2 t2.
  induction Hv1 as [current st t|current cur h st t st1 l1 t1 r vs current' st' t' Hg Hh He Hv1 IH];
    intros vs2 c2 st2 t2 Hv2 Hx2; inversion Hv2; subst; try done; unfold loop_exits in *.
  - match goal with H : loop_guard _ = Some _ |- _ => rewrite H in Hx1 end. congruence.
  - rewrite Hg in Hx2. congruence.
  - match goal with H : loop_guard _ = Some _ |- _ => rewrite Hg in H; injection H as <- end.
    match goal with H : nodes graph !! cur = Some _ |- _ => rewrite Hh in H; injection H as <- end.
    match goal with H : exec_node h _ = _ |- _ => rewrite He in H; injection H as <- <- <- <- end.
    match goal with H : visits _ (next_node _) _ _ _ _ _ _ |- _ =>
      destruct (IH Hx1 _ _ _ _ H Hx2) as (-> & -> & -> & ->) end.
    done.
Qed.
End LoopTrace.

(** ** The log of a whole run *)

Section RunGraphTrace.
Context {V F R : Type} `{!ToolFacade R F}.
Implicit Types (self : WorkflowEngine V F R) (graph : GraphDefinition V F) (run : GraphRun V).

(** C5. The log of a completed run is its trace: [run_graph] visited a
    sequence of nodes, the first the start node and each next one named
    by the previous node's [next_node], each returning normally with the
    state and registry threaded through; the log is the block of each
    visit in order (["Executing node 'X'"], X's own lines, X's non-empty
    message), then the not-found diagnostic if the loop ended on a
    missing node, then ["Run completed."]; the run's state is the state
    the last visit left, and the engine keeps the registry it left. *)
Theorem run_graph_completed_trace fuel rid gid init self self' graph run :
  graphs self !! gid = Some graph ->
  run_graph fuel rid gid init self = (self', Some (Ok run)) ->
  exists vs current' t',
    visits graph (Some (start_node graph)) (initial_state_copy init) (tool_registry self) vs current' (state run) t' /\
    loop_exits graph current' /\
    logs run = trace_lines vs ++ exit_lines current' ++ ["Run completed."] /\
    tool_registry self' = t'.
Proof.
  intros Hg. unfold run_graph. rewrite Hg. simpl.
  pose proof (run_loop_trace graph fuel (Some (start_node graph))
    (mkGraphRun rid gid (initial_state_copy init) [] Running None) (tool_registry self)) as Ht.
  destruct (run_loop _ _ _ _ _) as [run' t'| |]; intros Hr; simplify_eq/=.
  destruct Ht as (vs & current' & Hv & Hx & Hl & _). exists vs, current', t'.
  split_and!; [done|done| |done]. rewrite Hl. simpl. by rewrite <- !app_assoc.
Qed.

(** C6. The log of a failed run is its trace up to the node that
    raised: the blocks of the nodes that returned, then ["Executing node
    'X'"] and the lines X logged before raising, then ["Run failed: "]
    and [str(exc)]; the stored record is failed, still names X as its
    current node, and holds the state X left, and the engine keeps the
    registry X left. *)
Theorem run_graph_failed_trace fuel rid gid init self self' graph e :
  graphs self !! gid = Some graph ->
  run_graph fuel rid gid init self = (self', Some (Err e)) ->
  exists vs current' st t cur l run,
    visits graph (Some (start_node graph)) (initial_state_copy init) (tool_registry self) vs current' st t /\
    loop_raises graph current' st t cur l (state run) (tool_registry self') e /\
    runs self' !! rid = Some run /\ status run = Failed /\ current_node run = Some cur /\
    logs run = trace_lines vs ++ executing_line cur :: l ++ ["Run failed: " +:+ exc_str e].
Proof.
  intros Hg. unfold run_graph. rewrite Hg. simpl.
  pose proof (run_loop_trace graph fuel (Some (start_node graph))
    (mkGraphRun rid gid (initial_state_copy init) [] Running None) (tool_registry self)) as Ht.
  destruct (run_loop _ _ _ _ _) as [|run' t' e'|]; intros Hr; simplify_eq/=.
  destruct Ht as (vs & current' & st & t & cur & l & Hv & Hx & Hl & Hc & _).
  exists vs, current', st, t, cur, l, (fail_run run' e). split_and!; [done|done| |done|done|].
  - apply lookup_insert_eq.
  - simpl. rewrite Hl. simpl. by rewrite <- !app_assoc.
Qed.

(** Conversely, every trace from the start node that ends the loop
    normally is what [run_graph] computes, given one unit of fuel per
    visit and one for the last loop test. *)
Lemma run_graph_trace_complete fuel rid gid init self graph vs current' st' t' :
  graphs self !! gid = Some graph ->
  visits graph (Some (start_node graph)) (initial_state_copy init) (tool_registry self) vs current' st' t' ->
  loop_exits graph current' -> List.length vs + 1 <= fuel ->
  exists self' run, run_graph fuel rid gid init self = (self', Some (Ok run)) /\
    state run = st' /\ logs run = trace_lines vs ++ exit_lines current' ++ ["Run completed."] /\
    tool_registry self' = t'.
Proof.
  intros Hg Hv Hx Hf. unfold run_graph. rewrite Hg. cbn [tool_registry].
  destruct (visits_run_loop graph vs _ _ _ _ _ _ Hv Hx fuel
    (mkGraphRun rid gid (initial_state_copy init) [] Running None) eq_refl Hf) as (run' & -> & Hst & Hl & _).
  eexists _, _. split_and!; [reflexivity|done| |done]. simpl. rewrite Hl. simpl. by rewrite <- !app_assoc.
Qed.

(** Likewise every trace from the start node followed by a node that
    raises is what [run_graph] computes: it raises the node's exception
    and stores the failed record. *)
Lemma run_graph_failed_trace_complete fuel rid gid init self graph vs current' st t cur l st' t' e :
  graphs self !! gid = Some graph ->
  visits graph (Some (start_node graph)) (initial_state_copy init) (tool_registry self) vs current' st t ->
  loop_raises graph current' st t cur l st' t' e -> List.length vs + 1 <= fuel ->
  exists self' run, run_graph fuel rid gid init self = (self', Some (Err e)) /\
    runs self' !! rid = Some run /\ status run = Failed /\ state run = st' /\
    logs run = trace_lines vs ++ executing_line cur :: l ++ ["Run failed: " +:+ exc_str e] /\
    tool_registry self' = t'.
Proof.
  intros Hg Hv Hr Hf. unfold run_graph. rewrite Hg. cbn [tool_registry].
  destruct (visits_run_loop_raise graph vs _ _ _ _ _ _ _ _ _ _ _ Hv Hr fuel
    (mkGraphRun rid gid (initial_state_copy init) [] Running None) eq_refl Hf) as (run' & -> & Hst & Hl & _).
  eexists _, _. split_and!; [reflexivity|apply lookup_insert_eq|done|done| |done].
  simpl. rewrite Hl. simpl. by rewrite <- !app_assoc.
Qed.
End RunGraphTrace.

(** ** Witnesses *)

Section TraceWitnesses.
Import Demo TraceDemo.

Lemma run_graph_completed_trace_witness :
  graphs trace_engine !! "fr"%string = Some graph_fr /\
  (run_graph 3 "r1" "fr" None trace_engine).2 = Some (Ok run_fr) /\
  exists vs current' t',
    visits graph_fr (Some (start_node graph_fr)) (initial_state_copy None)
      (tool_registry trace_engine) vs current' (state run_fr) t' /\
    loop_exits graph_fr current' /\
    logs run_fr = trace_lines vs ++ exit_lines current' ++ ["Run completed."] /\
    tool_registry (run_graph 3 "r1" "fr" None trace_engine).1 = t'.
Proof.
  assert (Hg : graphs trace_engine !! "fr"%string = Some graph_fr) by (vm_compute; reflexivity).
  assert (Hr : run_graph 3 "r1" "fr" None trace_engine = ((run_graph 3 "r1" "fr" None trace_engine).1, Some (Ok run_fr)))
    by (apply injective_projections; [reflexivity|vm_compute; reflexivity]).
  split_and!; [exact Hg|by rewrite Hr|].
  exact (run_graph_completed_trace 3 "r1" "fr" None trace_engine _ graph_fr run_fr Hg Hr).
Defined.

Lemma run_graph_failed_trace_witness :
  graphs trace_engine !! "fr_raises"%string = Some graph_fr_raises /\
  (run_graph 3 "r2" "fr_raises" None trace_engine).2 = Some (Err (Exception "ValueError" "bad")) /\
  exists vs current' st t cur l run,
    visits graph_fr_raises (Some (start_node graph_fr_raises)) (initial_state_copy None)
      (tool_registry trace_engine) vs current' st t /\
    loop_raises graph_fr_raises current' st t cur l (state run)
      (tool_registry (run_graph 3 "r2" "fr_raises" None trace_engine).1) (Exception "ValueError" "bad") /\
    runs (run_graph 3 "r2" "fr_raises" None trace_engine).1 !! "r2"%string = Some run /\
    status run = Failed /\ current_node run = Some cur /\
    logs run = trace_lines vs ++ executing_line cur :: l ++ ["Run failed: " +:+ exc_str (Exception "ValueError" "bad")].
Proof.
  assert (Hg : graphs trace_engine !! "fr_raises"%string = Some graph_fr_raises) by (vm_compute; reflexivity).
  assert (Hr : run_graph 3 "r2" "fr_raises" None trace_engine =
    ((run_graph 3 "r2" "fr_raises" None trace_engine).1, Some (Err (Exception "ValueError" "bad"))))
    by (apply injective_projections; [reflexivity|vm_compute; reflexivity]).
  split_and!; [exact Hg|by rewrite Hr|].
  exact (run_graph_failed_trace 3 "r2" "fr_raises" None trace_engine _ graph_fr_raises _ Hg Hr).
Defined.
End TraceWitnesses.
