(* ===== verification/Concurrency.v ===== *)
(** * Concurrent runs ([src/engine.py], [run_graph] under asyncio)

    [run_graph] is a coroutine: several runs are in flight at once in the
    event loop, and control passes between them only where a coroutine
    suspends, that is inside [await handler(...)] (line 88), in the
    node's own awaits.  A run in flight is a thread: its graph (the
    object fetched at line 75, a snapshot that later registrations do not
    affect), and a phase, either the loop test [while current:] with the
    value of [current] ([TLoop]), inside a node with the rest of the
    node's program ([TNode]), or finished ([TReturned], [TRaised]).

    [tstep] is one atomic step of a thread.  It splits every effect of a
    node (a log line, a state write, a tool lookup or registration) into
    a step of its own, so every effect is a possible suspension point:
    the interleavings are a superset of those asyncio can produce, and
    what is proved of all of them holds of the real ones.  A thread's
    record lives in the engine's run table from the moment the run is
    created (line 74), so every step writes the record back there: this
    is the aliasing that lets [get_run] observe a run in flight.

    [cstep] interleaves the threads with the two other operations that
    change the engine: starting a run (lines 63-78, no suspension) and
    registering a graph (by the builders the host calls, see [builds]).
    A run's state dict is a value, as in [Engine]: the nested dicts that
    runs started from one [initial_state] share through the shallow copy
    of line 71 ([Aliasing]) are not threaded through the interleaving,
    so the theorems here are about the run table (which records exist,
    their status and their logs), not about what runs compute from
    shared nested state. *)

From stdpp Require Import base gmap strings list relations.
From Stdlib Require Import String.
From S2P Require Import Prelude PyStr PyDict Registry Node Engine Semantics.

Open Scope engine_scope.

(** Where a run's coroutine is. *)
Inductive ThreadPhase (V F : Type) :=
| TLoop (current : option string)     (** at [while current:] *)
| TNode (p : NodeCallable V F)         (** inside [await handler(...)] *)
| TReturned                             (** [return run] (line 98) *)
| TRaised (e : exc).                    (** [raise] (line 102) *)
Arguments TLoop {V F} current.
Arguments TNode {V F} p.
Arguments TReturned {V F}.
Arguments TRaised {V F} e.

Section Thread.
Context {V F R : Type} `{!ToolFacade R F}.

(** A thread's view: its phase, its run record, the shared registry. *)
Definition TCfg : Type := ThreadPhase V F * GraphRun V * R.

(** [run.state] after a node wrote it. *)
Definition set_state (run : GraphRun V) (st : gmap string V) : GraphRun V :=
  mkGraphRun (run_id run) (graph_id run) st (logs run) (status run) (current_node run).

(** One effect of the node [p], with the node's [logger] writing to
    [run.logs] and its [state] being [run.state]; a return goes back to
    the loop test through lines 90-93, a raise goes to the handler of
    lines 99-102. *)
Definition node_step (p : NodeCallable V F) (run : GraphRun V) (tools : R) : TCfg :=
  match p with
  | NReturn r => (TLoop (next_node r), log_message run (message r), tools)
  | NRaise e => (TRaised e, fail_run run e, tools)
  | NLog msg k => (TNode k, _append_log run msg, tools)
  | NGetState k => (TNode (k (state run)), run, tools)
  | NSetState st k => (TNode k, set_state run st, tools)
  | NGetTool name k =>
      match facade_get name tools with
      | Ok f => (TNode (k f), run, tools)
      | Err e => (TRaised e, fail_run run e, tools)
      end
  | NTryGetTool name k => (TNode (k (facade_try_get name tools)), run, tools)
  | NRegisterTool name f k => (TNode k, run, facade_register name f tools)
  end.

(** One atomic step of the coroutine of [run_graph] on [graph]: the loop
    test with what follows it up to the call of the handler (lines 80-88,
    or the [break] of line 85 and the completion of lines 95-98), or one
    effect of the node being awaited.  A finished coroutine has no step. *)
Definition tstep (graph : GraphDefinition V F) (c : TCfg) : option TCfg :=
  let '(ph, run, tools) := c in
  match ph with
  | TLoop current =>
      match loop_guard current with
      | None => Some (TReturned, complete_run run, tools)
      | Some cur =>
          let run := set_current_node run (Some cur) in
          match nodes graph !! cur with
          | None => Some (TReturned, complete_run (_append_log run (missing_line cur)), tools)
          | Some h => Some (TNode h, _append_log run (executing_line cur), tools)
          end
      end
  | TNode p => Some (node_step p run tools)
  | TReturned | TRaised _ => None
  end.

(** The record [run_graph] creates and stores before its loop (lines 67-74). *)
Definition start_record (rid gid : string) (init : option (gmap string V)) : GraphRun V :=
  mkGraphRun rid gid (initial_state_copy init) [] Running None.

(** A coroutine just past line 78: [current = graph.start_node]. *)
Definition thread_start (rid gid : string) (init : option (gmap string V))
    (graph : GraphDefinition V F) (tools : R) : TCfg :=
  (TLoop (Some (start_node graph)), start_record rid gid init, tools).

(** The engine right after line 74: [self.runs[run_id] = run]. *)
Definition spawn_engine (rid gid : string) (init : option (gmap string V))
    (self : WorkflowEngine V F R) : WorkflowEngine V F R :=
  mkWorkflowEngine (graphs self) (<[rid := start_record rid gid init]> (runs self)) (tool_registry self).

(** What a finished coroutine gave its awaiter: the run, or the exception. *)
Definition thread_result (ph : ThreadPhase V F) (run : GraphRun V) : option (result (GraphRun V)) :=
  match ph with
  | TReturned => Some (Ok run)
  | TRaised e => Some (Err e)
  | _ => None
  end.
End Thread.


(** ** Many coroutines in one event loop *)

(** The engine and the coroutines in flight, keyed by run id: each has the
    graph it fetched at line 75 and its phase.  Its run record is the one
    in the engine's run table. *)
Record Conc (V F R : Type) := mkConc {
  c_engine : WorkflowEngine V F R;
  c_threads : gmap string (GraphDefinition V F * ThreadPhase V F)
}.
Arguments mkConc {V F R} c_engine c_threads.
Arguments c_engine {V F R} _.
Arguments c_threads {V F R} _.

Section Interleaving.
Context {V F R : Type} `{!ToolFacade R F}.
(** The graphs the host registers while runs are in flight (in [main.py],
    those the entries of [WORKFLOW_BUILDERS] build). *)
Context (builds : GraphDefinition V F -> Prop).

(** One step of the event loop: a new [run_graph] call on a registered
    graph runs to its first suspension (lines 64-78, [run_id] a fresh
    uuid); a graph is registered; or one coroutine takes a step, reading
    and writing its record in the run table and the shared registry. *)
Inductive cstep : Conc V F R -> Conc V F R -> Prop :=
| cs_spawn rid gid init graph e th :
    graphs e !! gid = Some graph -> runs e !! rid = None ->
    cstep (mkConc e th)
      (mkConc (spawn_engine rid gid init e) (<[rid := (graph, TLoop (Some (start_node graph)))]> th))
| cs_register gid graph e th :
    builds graph -> cstep (mkConc e th) (mkConc (register_graph gid graph e).1 th)
| cs_thread rid graph ph run ph' run' tools' e th :
    th !! rid = Some (graph, ph) -> runs e !! rid = Some run ->
    tstep graph (ph, run, tool_registry e) = Some (ph', run', tools') ->
    cstep (mkConc e th) (mkConc (store_run e rid run' tools') (<[rid := (graph, ph')]> th)).
End Interleaving.

(** A schedule the event loop may follow: start a run, or resume one. *)
Inductive Event (V : Type) :=
| Spawn (rid gid : string) (init : option (gmap string V))
| Resume (rid : string).
Arguments Spawn {V} rid gid init.
Arguments Resume {V} rid.

Section Schedule.
Context {V F R : Type} `{!ToolFacade R F}.

(** The step an event asks for, when it is possible. *)
Definition conc_exec (ev : Event V) (c : Conc V F R) : option (Conc V F R) :=
  let e := c_engine c in
  match ev with
  | Spawn rid gid init =>
      match graphs e !! gid, runs e !! rid with
      | Some graph, None =>
          Some (mkConc (spawn_engine rid gid init e)
                  (<[rid := (graph, TLoop (Some (start_node graph)))]> (c_threads c)))
      | _, _ => None
      end
  | Resume rid =>
      match c_threads c !! rid, runs e !! rid with
      | Some (graph, ph), Some run =>
          match tstep graph (ph, run, tool_registry e) with
          | Some (ph', run', tools') =>
              Some (mkConc (store_run e rid run' tools') (<[rid := (graph, ph')]> (c_threads c)))
          | None => None
          end
      | _, _ => None
      end
  end.

Fixpoint conc_run (evs : list (Event V)) (c : Conc V F R) : option (Conc V F R) :=
  match evs with
  | [] => Some c
  | ev :: evs => match conc_exec ev c with Some c' => conc_run evs c' | None => None end
  end.

Lemma conc_exec_cstep builds ev c c' : conc_exec ev c = Some c' -> cstep builds c c'.
Proof.
  destruct c as [e th], ev as [rid gid init|rid]; unfold conc_exec; cbn [c_engine c_threads].
  - destruct (graphs e !! gid) eqn:Hg, (runs e !! rid) eqn:Hr; intros; simplify_eq.
    by apply cs_spawn.
  - destruct (th !! rid) as [[graph ph]|] eqn:Ht, (runs e !! rid) eqn:Hr; try done.
    destruct (tstep graph (ph, g, tool_registry e)) as [[[ph' run'] tools']|] eqn:Hs; intros; simplify_eq.
    by eapply cs_thread.
Qed.

Lemma conc_run_rtc builds evs c c' : conc_run evs c = Some c' -> rtc (cstep builds) c c'.
Proof.
  revert c. induction evs as [|ev evs IH]; simpl; intros c; [intros; simplify_eq; done|].
  destruct (conc_exec ev c) as [c1|] eqn:He; [|done].
  intros Hr. eapply rtc_l; [exact (conc_exec_cstep _ _ _ _ He) | exact (IH _ Hr)].
Qed.
End Schedule.

(** ** What every interleaving keeps *)

(** An invariant of a relation holds along its paths. *)
Lemma rtc_invariant {A} (Rel : relation A) (P : A -> Prop) x y :
  (forall a b, P a -> Rel a b -> P b) -> P x -> rtc Rel x y -> P y.
Proof. intros Hstep Hx Hr. induction Hr as [|a b c Hab _ IH]; [done|]. exact (IH (Hstep _ _ Hx Hab)). Qed.

(** [l `prefix_of` l ++ l1 ++ ...]: what an append-only log satisfies. *)
Ltac solve_prefix := repeat apply prefix_app_r; reflexivity.

Section ConcInv.
Context {V F R : Type} `{!ToolFacade R F}.
Context (builds : GraphDefinition V F -> Prop).
Implicit Types (c : Conc V F R) (run : GraphRun V).

(** The [status] field a coroutine's record has in each phase. *)
Definition phase_status (ph : ThreadPhase V F) : RunStatus :=
  match ph with
  | TReturned => Completed
  | TRaised _ => Failed
  | _ => Running
  end.

(** Every coroutine has its record in the run table, under its own id,
    with the status of its phase. *)
Definition conc_inv c : Prop :=
  map_Forall (fun rid (gp : GraphDefinition V F * ThreadPhase V F) =>
    exists run, runs (c_engine c) !! rid = Some run /\ run_id run = rid /\ status run = phase_status gp.2)
    (c_threads c).

Lemma log_message_logs_prefix run m : logs run `prefix_of` logs (log_message run m).
Proof. destruct m as [m|]; simpl; [destruct (py_truthy_str m)|]; simpl; solve_prefix. Qed.

(** A coroutine step keeps the run's id, moves its status with the
    phase, and only appends to its log. *)
Lemma tstep_header graph ph run tools ph' run' tools' :
  tstep graph (ph, run, tools) = Some (ph', run', tools') -> status run = phase_status ph ->
  run_id run' = run_id run /\ status run' = phase_status ph' /\ logs run `prefix_of` logs run'.
Proof.
  destruct ph as [current|p| |e]; simpl; try done.
  - destruct (loop_guard current) as [cur|]; [destruct (nodes graph !! cur)|];
      intros [= <- <- <-] Hst; simpl in *; split_and!; try done; solve_prefix.
  - intros Hs Hst. destruct p as [r|x|msg k|k|st k|name k|name k|name f k]; simpl in Hs;
      [|try destruct (facade_get name tools); simplify_eq/=; split_and!; try done; solve_prefix..].
    simplify_eq. destruct (log_message_header run (message r)) as (-> & _ & ->).
    split_and!; [done|done|apply log_message_logs_prefix].
Qed.

Lemma conc_inv_init (e : WorkflowEngine V F R) : conc_inv (mkConc e ∅).
Proof. apply map_Forall_empty. Qed.

Lemma cstep_conc_inv c c' : conc_inv c -> cstep builds c c' -> conc_inv c'.
Proof.
  unfold conc_inv. intros Hinv Hs.
  destruct Hs as [rid gid init graph e th Hg Hr|gid graph e th _|rid graph ph run ph' run' tools' e th Ht Hr Hs];
    simpl in *; [|done|].
  - apply map_Forall_insert_2; [by rewrite lookup_insert_eq; eexists|].
    intros rid' gp Hth. destruct (Hinv rid' gp Hth) as (run & Hrun & Hrest).
    rewrite lookup_insert_ne; [eauto|congruence].
  - destruct (Hinv rid _ Ht) as (run0 & Hrun0 & Hid & Hst). rewrite Hr in Hrun0. injection Hrun0 as <-.
    destruct (tstep_header _ _ _ _ _ _ _ Hs Hst) as (Hid' & Hst' & _).
    intros rid' gp [[<- <-]|[Hne Hth]]%lookup_insert_Some.
    + rewrite lookup_insert_eq. eexists; split_and!; [done|congruence|done].
    + destruct (Hinv rid' gp Hth) as (run1 & Hrun1 & Hrest). rewrite lookup_insert_ne; eauto.
Qed.

Lemma conc_inv_reach (e : WorkflowEngine V F R) c : rtc (cstep builds) (mkConc e ∅) c -> conc_inv c.
Proof. apply rtc_invariant; [apply cstep_conc_inv|apply conc_inv_init]. Qed.

(** A record with a terminal status is never written again: its
    coroutine, if any, has finished, and a new run draws a fresh id. *)
Lemma cstep_terminal_keep c c' rid run :
  conc_inv c -> cstep builds c c' -> runs (c_engine c) !! rid = Some run ->
  terminal (status run) = true -> runs (c_engine c') !! rid = Some run.
Proof.
  intros Hinv Hs Hrun Hterm.
  destruct Hs as [rid' gid init graph e th Hg Hr|gid graph e th _|rid' graph ph run0 ph' run' tools' e th Ht Hr Hs];
    simpl in *; [rewrite lookup_insert_ne; congruence|done|].
  destruct (decide (rid = rid')) as [->|Hne]; [|by rewrite lookup_insert_ne].
  destruct (Hinv _ _ Ht) as (run1 & Hrun1 & _ & Hst). simpl in Hrun1. assert (run1 = run) as -> by congruence.
  rewrite Hst in Hterm. by destruct ph.
Qed.

(** A coroutine keeps its graph and its record through any step, and its
    record's log only grows. *)
Lemma cstep_thread_keep c c' rid graph ph run :
  conc_inv c -> cstep builds c c' -> c_threads c !! rid = Some (graph, ph) ->
  runs (c_engine c) !! rid = Some run ->
  exists ph' run', c_threads c' !! rid = Some (graph, ph') /\ runs (c_engine c') !! rid = Some run' /\
    run_id run' = run_id run /\ logs run `prefix_of` logs run'.
Proof.
  intros Hinv Hs Hth Hrun.
  destruct Hs as [rid' gid init graph' e th Hg Hr|gid graph' e th _|rid' graph' ph0 run0 ph' run' tools' e th Ht Hr Hs];
    simpl in *.
  - assert (rid <> rid') by congruence. rewrite !lookup_insert_ne by done. by exists ph, run.
  - by exists ph, run.
  - destruct (decide (rid = rid')) as [->|Hne]; [|rewrite !lookup_insert_ne by done; by exists ph, run].
    assert (graph' = graph /\ ph0 = ph) as [-> ->] by (split; congruence).
    assert (run0 = run) as -> by congruence.
    destruct (Hinv _ _ Ht) as (run1 & Hrun1 & _ & Hst). simpl in Hrun1. assert (run1 = run) as -> by congruence.
    destruct (tstep_header _ _ _ _ _ _ _ Hs Hst) as (Hid & _ & Hpre).
    rewrite !lookup_insert_eq. exists ph', run'. split_and!; [done|done|congruence|done].
Qed.

(** ... and so through any number of steps. *)
Lemma rtc_thread_keep c1 c2 rid graph ph run :
  conc_inv c1 -> rtc (cstep builds) c1 c2 -> c_threads c1 !! rid = Some (graph, ph) ->
  runs (c_engine c1) !! rid = Some run ->
  exists ph' run', c_threads c2 !! rid = Some (graph, ph') /\ runs (c_engine c2) !! rid = Some run' /\
    run_id run' = run_id run /\ logs run `prefix_of` logs run'.
Proof.
  intros Hinv H12 Hth Hrun.
  destruct (rtc_invariant (cstep builds) (fun c => conc_inv c /\ exists ph' run',
      c_threads c !! rid = Some (graph, ph') /\ runs (c_engine c) !! rid = Some run' /\
      run_id run' = run_id run /\ logs run `prefix_of` logs run') c1 c2) as [_ H];
    [ |by split; [|exists ph, run] | done | exact H].
  intros a b [Ha (pha & runa & Hta & Hra & Hida & Hprea)] Hab.
  destruct (cstep_thread_keep a b rid graph pha runa Ha Hab Hta Hra) as (phb & runb & Htb & Hrb & Hidb & Hpreb).
  split; [by eapply cstep_conc_inv|]. exists phb, runb.
  split_and!; [done|done|congruence|by transitivity (logs runa)].
Qed.
End ConcInv.


Section ConcClaims.
Context {V F R : Type} `{!ToolFacade R F}.
Context (builds : GraphDefinition V F -> Prop).

(** C32. Under any interleaving, a ["completed"] or ["failed"] record
    stays in the run table exactly as it is: no coroutine writes it
    again and no new run takes its id. *)
Theorem conc_terminal_final (e : WorkflowEngine V F R) c0 c1 rid run :
  rtc (cstep builds) (mkConc e ∅) c0 -> rtc (cstep builds) c0 c1 ->
  runs (c_engine c0) !! rid = Some run -> terminal (status run) = true ->
  runs (c_engine c1) !! rid = Some run.
Proof.
  intros H0 H1 Hrun Ht.
  enough (conc_inv c1 /\ runs (c_engine c1) !! rid = Some run) as [_ ?] by done.
  apply (rtc_invariant (cstep builds) (fun c => conc_inv c /\ runs (c_engine c) !! rid = Some run) c0 c1);
    [|split; [by eapply conc_inv_reach|done]|done].
  intros a b [Ha Hra] Hab. split; [by eapply cstep_conc_inv|by eapply cstep_terminal_keep].
Qed.

(** C33. What [get_run] shows of a run in flight (spec 4.4) is a prefix
    of what it shows later: the record stays under its id and its log
    only grows, whatever the other runs do in between. *)
Theorem get_run_in_flight_prefix (e : WorkflowEngine V F R) c1 c2 rid graph ph :
  rtc (cstep builds) (mkConc e ∅) c1 -> c_threads c1 !! rid = Some (graph, ph) ->
  rtc (cstep builds) c1 c2 ->
  exists run1 run2, get_run rid (c_engine c1) = Some run1 /\ get_run rid (c_engine c2) = Some run2 /\
    run_id run2 = rid /\ logs run1 `prefix_of` logs run2.
Proof.
  intros H1 Hth H12. pose proof (conc_inv_reach builds _ _ H1) as Hinv.
  destruct (Hinv rid _ Hth) as (run1 & Hrun1 & Hid & _).
  destruct (rtc_thread_keep builds _ _ _ _ _ _ Hinv H12 Hth Hrun1) as (ph2 & run2 & _ & Hrun2 & Hid2 & Hpre).
  exists run1, run2. unfold get_run. split_and!; [done|done|congruence|done].
Qed.
End ConcClaims.

(** ** Two runs of the A-B graph, interleaved *)

Module ConcDemo.
Import Demo.

(** The engine with only [graph_AB] registered, under ["ab"]. *)
Definition engine_ab : WorkflowEngine string unit Reg :=
  (register_graph "ab" graph_AB (init (F:=unit) ToolRegistry.init)).1.

Definition builds_ab (g : GraphDefinition string unit) : Prop := g = graph_AB.

Definition conc0 : Conc string unit Reg := mkConc engine_ab ∅.

(** Start ["r1"] and ["r2"], alternate them, and let ["r1"] finish while
    ["r2"] is between its two nodes ... *)
Definition sched_a : list (Event string) :=
  [Spawn "r1" "ab" None; Spawn "r2" "ab" None; Resume "r1"; Resume "r2"; Resume "r1";
   Resume "r2"; Resume "r1"; Resume "r1"; Resume "r1"].

(** ... then let ["r2"] finish. *)
Definition sched_b : list (Event string) := [Resume "r2"; Resume "r2"; Resume "r2"].

Definition conc_a : Conc string unit Reg :=
  match conc_run sched_a conc0 with Some c => c | None => conc0 end.
Definition conc_b : Conc string unit Reg :=
  match conc_run sched_b conc_a with Some c => c | None => conc_a end.

End ConcDemo.

Section ConcWitnesses.
Import Demo ConcDemo.

Lemma conc_a_reach : rtc (cstep builds_ab) conc0 conc_a.
Proof. apply (conc_run_rtc _ sched_a). vm_compute. reflexivity. Qed.

Lemma conc_b_step : rtc (cstep builds_ab) conc_a conc_b.
Proof. apply (conc_run_rtc _ sched_b). vm_compute. reflexivity. Qed.

Lemma conc_terminal_final_witness :
  runs (c_engine conc_a) !! "r1"%string = Some (mkGraphRun "r1" "ab" ∅
    ["Executing node 'A'"; "did A"; "Executing node 'B'"; "did B"; "Run completed."] Completed None) /\
  runs (c_engine conc_b) !! "r1"%string = Some (mkGraphRun "r1" "ab" ∅
    ["Executing node 'A'"; "did A"; "Executing node 'B'"; "did B"; "Run completed."] Completed None).
Proof.
  assert (H : runs (c_engine conc_a) !! "r1"%string = Some (mkGraphRun "r1" "ab" ∅
    ["Executing node 'A'"; "did A"; "Executing node 'B'"; "did B"; "Run completed."] Completed None))
    by (vm_compute; reflexivity).
  split; [exact H|]. exact (conc_terminal_final builds_ab engine_ab conc_a conc_b "r1" _ conc_a_reach conc_b_step H eq_refl).
Defined.

Lemma get_run_in_flight_prefix_witness :
  c_threads conc_a !! "r2"%string = Some (graph_AB, TLoop (Some "B"%string)) /\
  exists run1 run2, get_run "r2" (c_engine conc_a) = Some run1 /\ get_run "r2" (c_engine conc_b) = Some run2 /\
    run_id run2 = "r2"%string /\ logs run1 `prefix_of` logs run2.
Proof.
  assert (H : c_threads conc_a !! "r2"%string = Some (graph_AB, TLoop (Some "B"%string))) by (vm_compute; reflexivity).
  split; [exact H|].
  exact (get_run_in_flight_prefix builds_ab engine_ab conc_a conc_b "r2" _ _ conc_a_reach H conc_b_step).
Defined.
End ConcWitnesses.
