(* ===== verification/Aliasing.v ===== *)
(** * The initial state dict as a heap object ([src/engine.py] line 71)

    [GraphRun.state] is [dict(initial_state or {})].  [Engine] models the
    dict as a value, which is exact for its top-level keys.  Python values
    are references, though: a nested dict is one object reachable from
    both the caller's [initial_state] and the copy, and [dict(...)] copies
    only the top level.  This file models the objects involved as a heap
    of dict objects ([Heap], keyed by [loc]) whose values may be
    references ([PyRef]).  It translates [initial_state or {}], [dict(...)],
    [d[k]] and [d[k] = v], and shows which writes of a node through
    [run.state] the caller's object sees. *)

From stdpp Require Import base gmap strings list.
From Stdlib Require Import String ZArith.
From S2P Require Import Prelude.

Open Scope engine_scope.

(** The address of a dict object. *)
Notation loc := positive (only parsing).

(** The JSON-like values a state holds; a nested dict is a reference. *)
Inductive PyVal :=
| PyNone
| PyInt (z : Z)
| PyStr (s : string)
| PyRef (l : loc).

#[export] Instance PyVal_eq_dec : EqDecision PyVal.
Proof. solve_decision. Qed.

(** The dict objects alive. *)
Notation Heap := (gmap loc (gmap string PyVal)) (only parsing).

Section Objects.
Implicit Types (h : Heap) (l : loc).

(** A new object gets an address no live object has. *)
Definition fresh_loc h : loc := fresh (dom h : gset loc).

(** [{}]: a new empty dict. *)
Definition dict_new h : Heap * loc := let l := fresh_loc h in (<[l := ∅]> h, l).

(** [dict(d)]: a new dict with the same keys bound to the same values
    (the same references). *)
Definition dict_copy h l : option (Heap * loc) :=
  d ← h !! l; let l' := fresh_loc h in Some (<[l' := d]> h, l').

(** [initial_state or {}] on [Optional[dict]]: a non-empty dict is
    truthy and is the value; [None] and [{}] give a new empty dict. *)
Definition dict_or_empty h (init : option loc) : option (Heap * loc) :=
  match init with
  | Some l => d ← h !! l; if bool_decide (d = (∅ : gmap string PyVal)) then Some (dict_new h) else Some (h, l)
  | None => Some (dict_new h)
  end.

(** Line 71: [state=dict(initial_state or {})]. *)
Definition initial_state_dict h (init : option loc) : option (Heap * loc) :=
  '(h1, l1) ← dict_or_empty h init; dict_copy h1 l1.

(** [d[k]] ([None] for the [KeyError]). *)
Definition getitem h l (k : string) : option PyVal := d ← h !! l; d !! k.

(** [d[k] = v]. *)
Definition setitem h l (k : string) (v : PyVal) : option Heap :=
  d ← h !! l; Some (<[l := <[k := v]> d]> h).

(** [d[k1][k2]...[kn]]. *)
Fixpoint get_path h l (ks : list string) : option PyVal :=
  match ks with
  | [] => None
  | [k] => getitem h l k
  | k :: ks =>
      match getitem h l k with
      | Some (PyRef r) => get_path h r ks
      | _ => None
      end
  end.
End Objects.

(** ** Which writes the caller sees *)

Section AliasingProps.
Implicit Types (h : Heap) (l : loc).

Lemma fresh_loc_None h : h !! fresh_loc h = None.
Proof. unfold fresh_loc. apply (not_elem_of_dom (D:=gset loc)). apply is_fresh. Qed.

Lemma fresh_loc_ne h l d : h !! l = Some d -> fresh_loc h <> l.
Proof. intros Hl <-. by rewrite fresh_loc_None in Hl. Qed.

Lemma dict_copy_spec h l d :
  h !! l = Some d -> dict_copy h l = Some (<[fresh_loc h := d]> h, fresh_loc h).
Proof. unfold dict_copy. by intros ->. Qed.

(** A caller's non-empty dict is copied: a new object with the same
    entries, every other object left alone. *)
Lemma initial_state_dict_nonempty h l d :
  h !! l = Some d -> d <> ∅ ->
  initial_state_dict h (Some l) = Some (<[fresh_loc h := d]> h, fresh_loc h).
Proof.
  intros Hl Hd. unfold initial_state_dict, dict_or_empty. rewrite Hl. simpl.
  rewrite bool_decide_false by done. simpl. by apply dict_copy_spec.
Qed.

(** The top level is a copy: a node's [state[k] = v] leaves the caller's
    dict as it was. *)
Lemma initial_state_top_level_copy h l d h' l' k v h'' :
  h !! l = Some d -> d <> ∅ -> initial_state_dict h (Some l) = Some (h', l') ->
  setitem h' l' k v = Some h'' -> h'' !! l = Some d.
Proof.
  intros Hl Hd. rewrite (initial_state_dict_nonempty h l d Hl Hd). intros [= <- <-].
  unfold setitem. rewrite lookup_insert_eq. simpl. intros [= <-].
  rewrite lookup_insert_ne by (by eapply fresh_loc_ne). rewrite lookup_insert_ne by (by eapply fresh_loc_ne).
  done.
Qed.

(** C26. The run's state shares the caller's nested dicts: after
    [state = dict(initial_state or {})], the copy's entry [k] is the very
    dict object the caller's [initial_state[k]] refers to, so a node's
    [state[k][k2] = v] is what the caller then reads at
    [initial_state[k][k2]].  The copy is not the deep copy spec 3 asks
    for. *)
Lemma initial_state_shares_nested h l d k r h' l' k2 v h'' :
  h !! l = Some d -> d !! k = Some (PyRef r) -> r <> l ->
  initial_state_dict h (Some l) = Some (h', l') ->
  getitem h' l' k = Some (PyRef r) /\
  (setitem h' r k2 v = Some h'' -> get_path h'' l [k; k2] = Some v).
Proof.
  intros Hl Hk Hr. assert (Hd : d <> ∅) by (intros ->; by rewrite lookup_empty in Hk).
  rewrite (initial_state_dict_nonempty h l d Hl Hd). intros [= <- <-].
  unfold getitem. rewrite lookup_insert_eq. simpl. split; [done|].
  unfold setitem. destruct (<[fresh_loc h:=d]> h !! r) as [dr|] eqn:Hdr; simpl; [|done].
  intros [= <-]. simpl. unfold getitem.
  rewrite lookup_insert_ne by done. rewrite lookup_insert_ne by (by eapply fresh_loc_ne).
  rewrite Hl. simpl. rewrite Hk. rewrite lookup_insert_eq. simpl. by rewrite lookup_insert_eq.
Qed.
End AliasingProps.

(** A caller's [{"cfg": {}}]: after the copy, a node's
    [state["cfg"]["seen"] = 1] is read back from the caller's dict. *)
Module AliasDemo.
Definition alias_caller : gmap string PyVal := {[ "cfg" := PyRef 2 ]}.
Definition alias_heap : gmap loc (gmap string PyVal) := <[1%positive := alias_caller]> {[ 2%positive := ∅ ]}.
Definition alias_after_copy : gmap loc (gmap string PyVal) :=
  <[fresh_loc alias_heap := alias_caller]> alias_heap.
Definition alias_after_write : gmap loc (gmap string PyVal) :=
  <[2%positive := {[ "seen" := PyInt 1 ]}]> alias_after_copy.
End AliasDemo.

Section AliasWitness.
Import AliasDemo.

Lemma initial_state_shares_nested_witness :
  initial_state_dict alias_heap (Some 1%positive) = Some (alias_after_copy, fresh_loc alias_heap) /\
  get_path alias_after_write 1 ["cfg"; "seen"] = Some (PyInt 1).
Proof.
  assert (Hc : initial_state_dict alias_heap (Some 1%positive) = Some (alias_after_copy, fresh_loc alias_heap))
    by (vm_compute; reflexivity).
  split; [exact Hc|].
  apply (proj2 (initial_state_shares_nested alias_heap 1 alias_caller "cfg" 2 alias_after_copy
    (fresh_loc alias_heap) "seen" (PyInt 1) alias_after_write eq_refl eq_refl ltac:(discriminate) Hc)).
  vm_compute. reflexivity.
Defined.
End AliasWitness.
