(* ===== verification/Api.v ===== *)
(** * The HTTP layer ([src/main.py]) and its payloads ([src/models.py])

    The FastAPI handlers as functions over the engine state.  The module
    globals [tool_registry] and [engine] share one registry object
    ([engine.tool_registry is tool_registry]), so the application state
    is the engine alone and the builders get [tool_registry app].  An
    [HTTPException] is a response with its status code and detail; an
    exception that escapes a handler (a node failure) is [InternalError],
    which FastAPI turns into a 500.  The workflow builders live outside
    [src/] ([workflows/code_review.py]) and are a parameter of the
    section.  [available_nodes] is [list(graph.nodes.keys())], the node
    names in the order the builder inserted them ([PyDict]). *)

From stdpp Require Import base gmap strings list.
From Stdlib Require Import String.
From S2P Require Import Prelude PyStr PyDict Registry Tools Node Engine.

Open Scope engine_scope.

(** ** Payloads ([src/models.py]) *)

Record GraphCreateRequest := mkGraphCreateRequest {
  req_graph_id : string;
  workflow : string          (** defaults to ["code_review"] *)
}.

Record GraphCreateResponse := mkGraphCreateResponse {
  created_graph_id : string;
  created_start_node : string;
  available_nodes : list string
}.

Record GraphRunRequest (V : Type) := mkGraphRunRequest {
  run_req_graph_id : string;
  initial_state : gmap string V   (** [default_factory=dict] *)
}.
Arguments mkGraphRunRequest {V} run_req_graph_id initial_state.
Arguments run_req_graph_id {V} _.
Arguments initial_state {V} _.

Record GraphRunResult (V : Type) := mkGraphRunResult {
  result_run_id : string;
  result_graph_id : string;
  final_state : gmap string V;
  result_logs : list string;
  result_status : string
}.
Arguments mkGraphRunResult {V} result_run_id result_graph_id final_state result_logs result_status.
Arguments result_run_id {V} _.
Arguments result_graph_id {V} _.
Arguments final_state {V} _.
Arguments result_logs {V} _.
Arguments result_status {V} _.

Record GraphStateResponse (V : Type) := mkGraphStateResponse {
  state_run_id : string;
  state_graph_id : string;
  state_state : gmap string V;
  state_logs : list string;
  state_status : string;
  state_current_node : option string
}.
Arguments mkGraphStateResponse {V} state_run_id state_graph_id state_state state_logs state_status state_current_node.
Arguments state_run_id {V} _.
Arguments state_graph_id {V} _.
Arguments state_state {V} _.
Arguments state_logs {V} _.
Arguments state_status {V} _.
Arguments state_current_node {V} _.

(** What a handler answers. *)
Inductive HttpResponse (A : Type) :=
| Response (body : A)
| HTTPException (status_code : nat) (detail : string)
| InternalError (e : exc).
Arguments Response {A} body.
Arguments HTTPException {A} status_code detail.
Arguments InternalError {A} e.

#[export] Instance tool_facade : ToolFacade (ToolRegistry.ToolRegistry tool) tool :=
  ToolRegistry_facade tool_truthy.

Section Api.
Context {V : Type}.
(** [build_code_review_workflow] of [workflows/code_review.py]. *)
Context (build_code_review_workflow : ToolRegistry.ToolRegistry tool -> GraphDefinition V tool).

Definition App : Type := WorkflowEngine V tool (ToolRegistry.ToolRegistry tool).

(** Module initialisation: [tool_registry = ToolRegistry()],
    [register_default_tools(tool_registry)],
    [engine = WorkflowEngine(tool_registry)]. *)
Definition app_init : App := init (register_default_tools ToolRegistry.init).

(** [WORKFLOW_BUILDERS = {"code_review": build_code_review_workflow}] *)
Definition WORKFLOW_BUILDERS : gmap string (ToolRegistry.ToolRegistry tool -> GraphDefinition V tool) :=
  {[ "code_review" := build_code_review_workflow ]}.

(** [ensure_default_graph()] (startup hook) *)
Definition ensure_default_graph (app : App) : App :=
  if has_graph "code_review" app then app
  else (register_graph "code_review" (build_code_review_workflow (tool_registry app)) app).1.

(** [POST /graph/create] *)
Definition create_graph (payload : GraphCreateRequest) (app : App)
    : App * HttpResponse GraphCreateResponse :=
  match WORKFLOW_BUILDERS !! workflow payload with
  | None => (app, HTTPException 400 ("Unknown workflow '" +:+ workflow payload +:+ "'."))
  | Some builder =>
      let graph := builder (tool_registry app) in
      let app := (register_graph (req_graph_id payload) graph app).1 in
      (app, Response (mkGraphCreateResponse (req_graph_id payload) (start_node graph)
                        (pd_keys (nodes graph))))
  end.

(** [POST /graph/run]; [None] while the run has not finished within the
    fuel, [run_id] being the uuid the engine draws. *)
Definition run_graph_endpoint (fuel : nat) (run_id : string) (payload : GraphRunRequest V)
    (app : App) : App * option (HttpResponse (GraphRunResult V)) :=
  if negb (has_graph (run_req_graph_id payload) app) then
    (app, Some (HTTPException 404 ("Graph '" +:+ run_req_graph_id payload +:+ "' is not registered.")))
  else
    match run_graph fuel run_id (run_req_graph_id payload) (Some (initial_state payload)) app with
    | (app, None) => (app, None)
    | (app, Some (Ok run)) =>
        (app, Some (Response (mkGraphRunResult (Engine.run_id run) (graph_id run) (state run)
                                (logs run) (status_str (status run)))))
    | (app, Some (Err e)) => (app, Some (InternalError e))
    end.

(** [GET /graph/state/{run_id}] *)
Definition get_run_state (run_id : string) (app : App) : HttpResponse (GraphStateResponse V) :=
  match get_run run_id app with
  | None => HTTPException 404 ("Run '" +:+ run_id +:+ "' not found.")
  | Some run =>
      Response (mkGraphStateResponse (Engine.run_id run) (graph_id run) (state run) (logs run)
                  (status_str (status run)) (current_node run))
  end.
End Api.

(** ** A concrete application

    A one-node workflow whose node looks up ["detect_smells"], and a
    variant whose node asks for an unregistered ["lint"] tool. *)
Module ApiDemo.
Definition node_review : NodeCallable string tool :=
  NGetTool "detect_smells" (fun _ => NLog "ran detect_smells" (NReturn (mkNodeResult None (Some "done"%string)))).
Definition node_lint : NodeCallable string tool :=
  NGetTool "lint" (fun _ => NReturn (mkNodeResult None None)).
Definition build_review (_ : ToolRegistry.ToolRegistry tool) : GraphDefinition string tool :=
  mkGraphDefinition "review" {[ "review" := node_review ]}.
Definition build_lint (_ : ToolRegistry.ToolRegistry tool) : GraphDefinition string tool :=
  mkGraphDefinition "review" {[ "review" := node_lint ]}.
Definition app_review : App (V:=string) := ensure_default_graph build_review app_init.
Definition app_lint : App (V:=string) := ensure_default_graph build_lint app_init.
Definition review_result : GraphRunResult string :=
  mkGraphRunResult "r1" "code_review" ∅
    ["Executing node 'review'"; "ran detect_smells"; "done"; "Run completed."] "completed".
End ApiDemo.

(** ** Properties of the handlers *)

Section ApiProps.
Context {V : Type}.
Context (build : ToolRegistry.ToolRegistry tool -> GraphDefinition V tool).
Implicit Types (app : App (V:=V)).

(** C20. [POST /graph/create] with the known workflow registers the graph
    the builder makes from the shared registry under the requested id,
    and answers with its start node and [list(graph.nodes.keys())]:
    exactly its node names, in the order the builder wrote them. *)
Theorem create_graph_registers gid app :
  let graph := build (tool_registry app) in
  exists resp,
    create_graph build (mkGraphCreateRequest gid "code_review") app =
      ((register_graph gid graph app).1, Response resp) /\
    created_graph_id resp = gid /\ created_start_node resp = start_node graph /\
    available_nodes resp = pd_keys (nodes graph) /\
    (forall n, n ∈ available_nodes resp <-> is_Some (nodes graph !! n)) /\
    (forall l, nodes graph = pd_of_list l -> NoDup l.*1 -> available_nodes resp = l.*1).
Proof.
  intros graph. eexists. split; [reflexivity|].
  cbn [created_graph_id created_start_node available_nodes]. split_and!; [done|done|done| |].
  - intros n. apply pd_elem_of_keys.
  - intros l Hl Hnd. unfold graph in Hl. rewrite Hl. by apply pd_keys_of_list.
Qed.

(** C21. An unknown workflow name is answered 400 and changes nothing. *)
Theorem create_graph_unknown gid w app :
  w <> "code_review"%string ->
  create_graph build (mkGraphCreateRequest gid w) app =
    (app, HTTPException 400 ("Unknown workflow '" +:+ w +:+ "'.")).
Proof.
  intros Hw. unfold create_graph, WORKFLOW_BUILDERS. simpl.
  by rewrite lookup_singleton_ne by congruence.
Qed.

(** C19. [POST /graph/run] on an unregistered id is answered 404 and
    creates no run record. *)
Theorem run_endpoint_unregistered fuel rid gid st app :
  has_graph gid app = false ->
  run_graph_endpoint fuel rid (mkGraphRunRequest gid st) app =
    (app, Some (HTTPException 404 ("Graph '" +:+ gid +:+ "' is not registered."))).
Proof. intros H. unfold run_graph_endpoint. simpl. by rewrite H. Qed.

(** C17. After a successful [POST /graph/run], [GET /graph/state/{run_id}]
    shows the same run: same graph, state and logs, status ["completed"]
    and no current node. *)
Theorem run_endpoint_then_state fuel rid payload app app' res :
  run_graph_endpoint fuel rid payload app = (app', Some (Response res)) ->
  result_status res = "completed"%string /\ result_run_id res = rid /\
  get_run_state rid app' =
    Response (mkGraphStateResponse rid (result_graph_id res) (final_state res) (result_logs res)
                "completed" None).
Proof.
  unfold run_graph_endpoint. destruct (negb (has_graph _ app)); [by intros [= _ _]|].
  destruct (run_graph fuel rid _ _ app) as [app1 [[run|e]|]] eqn:Hr; intros [= <- Hres]; subst res.
  destruct (run_graph_ok_record _ _ _ _ _ _ _ Hr) as (Hget & Hst & Hcur & Hid).
  unfold get_run_state. rewrite Hget, Hst, Hcur, Hid. simpl. by split_and!.
Qed.

(** C18. When a node raises, [POST /graph/run] fails with that exception
    (a 500), and [GET /graph/state/{run_id}] then shows the run
    ["failed"] with the failure as its last log line. *)
Theorem run_endpoint_failure_then_state fuel rid gid st app app' e :
  run_graph_endpoint fuel rid (mkGraphRunRequest gid st) app = (app', Some (InternalError e)) ->
  exists res,
    get_run_state rid app' = Response res /\ state_status res = "failed"%string /\
    state_run_id res = rid /\
    exists l, state_logs res = l ++ ["Run failed: " +:+ exc_str e].
Proof.
  unfold run_graph_endpoint, has_graph. simpl.
  destruct (graphs app !! gid) as [graph|] eqn:Hg; simpl; [|by intros [= _ _]].
  destruct (run_graph fuel rid gid _ app) as [app1 [[run|x]|]] eqn:Hr; intros [= <- <-].
  destruct (run_graph_err_record _ _ _ _ _ _ _ (mk_is_Some _ _ Hg) Hr) as (run & Hget & Hst & Hid & Hl).
  unfold get_run_state. rewrite Hget. eexists. split; [done|]. simpl. by rewrite Hst, Hid.
Qed.

(** C22. The startup hook leaves a registered ["code_review"] graph as it
    is (a graph created under that id is not replaced), registers the
    builder's graph otherwise, and is idempotent. *)
Theorem ensure_default_graph_spec app :
  has_graph "code_review" (ensure_default_graph build app) = true /\
  (has_graph "code_review" app = true -> ensure_default_graph build app = app) /\
  ensure_default_graph build (ensure_default_graph build app) = ensure_default_graph build app.
Proof.
  unfold ensure_default_graph, has_graph.
  destruct (bool_decide (is_Some (graphs app !! "code_review"%string))) eqn:E; simpl.
  - by rewrite E.
  - rewrite lookup_insert_eq. simpl. by split_and!.
Qed.
End ApiProps.

(** ** Witnesses *)

Section ApiWitnesses.
Import ApiDemo.

Lemma create_graph_unknown_witness :
  "batch"%string <> "code_review"%string /\
  create_graph build_review (mkGraphCreateRequest "g" "batch") app_review =
    (app_review, HTTPException 400 ("Unknown workflow '" +:+ "batch" +:+ "'.")).
Proof.
  assert (H : "batch"%string <> "code_review"%string) by discriminate.
  split; [exact H | exact (create_graph_unknown build_review "g" "batch" app_review H)].
Defined.

Lemma run_endpoint_unregistered_witness :
  has_graph "nope" app_review = false /\
  run_graph_endpoint 5 "r1" (mkGraphRunRequest "nope" ∅) app_review =
    (app_review, Some (HTTPException 404 ("Graph '" +:+ "nope" +:+ "' is not registered."))).
Proof.
  assert (H : has_graph "nope" app_review = false) by (vm_compute; reflexivity).
  split; [exact H | exact (run_endpoint_unregistered 5 "r1" "nope" ∅ app_review H)].
Defined.

Lemma run_endpoint_then_state_witness :
  run_graph_endpoint 5 "r1" (mkGraphRunRequest "code_review" ∅) app_review =
    ((run_graph_endpoint 5 "r1" (mkGraphRunRequest "code_review" ∅) app_review).1,
     Some (Response review_result)) /\
  (result_status review_result = "completed"%string /\ result_run_id review_result = "r1"%string /\
   get_run_state "r1" (run_graph_endpoint 5 "r1" (mkGraphRunRequest "code_review" ∅) app_review).1 =
     Response (mkGraphStateResponse "r1" (result_graph_id review_result) (final_state review_result)
                 (result_logs review_result) "completed" None)).
Proof.
  assert (H : run_graph_endpoint 5 "r1" (mkGraphRunRequest "code_review" ∅) app_review =
    ((run_graph_endpoint 5 "r1" (mkGraphRunRequest "code_review" ∅) app_review).1,
     Some (Response review_result)))
    by (apply injective_projections; [reflexivity|vm_compute; reflexivity]).
  split; [exact H | exact (run_endpoint_then_state _ _ _ _ _ _ H)].
Defined.

Lemma run_endpoint_failure_then_state_witness :
  run_graph_endpoint 5 "r2" (mkGraphRunRequest "code_review" ∅) app_lint =
    ((run_graph_endpoint 5 "r2" (mkGraphRunRequest "code_review" ∅) app_lint).1,
     Some (InternalError (tool_not_registered "lint"))) /\
  exists res,
    get_run_state "r2" (run_graph_endpoint 5 "r2" (mkGraphRunRequest "code_review" ∅) app_lint).1 =
      Response res /\ state_status res = "failed"%string /\ state_run_id res = "r2"%string /\
    exists l, state_logs res = l ++ ["Run failed: " +:+ exc_str (tool_not_registered "lint")].
Proof.
  assert (H : run_graph_endpoint 5 "r2" (mkGraphRunRequest "code_review" ∅) app_lint =
    ((run_graph_endpoint 5 "r2" (mkGraphRunRequest "code_review" ∅) app_lint).1,
     Some (InternalError (tool_not_registered "lint"))))
    by (apply injective_projections; [reflexivity|vm_compute; reflexivity]).
  split; [exact H | exact (run_endpoint_failure_then_state _ _ _ _ _ _ _ H)].
Defined.
End ApiWitnesses.
