(* ===== verification/ApiConc.v ===== *)
(** * The HTTP handlers in one event loop ([src/main.py] with [Concurrency])

    FastAPI runs the handlers of [main.py] as coroutines on one event
    loop.  [create_graph] and [get_run_state] never suspend; the handler
    of [POST /graph/run] checks the graph (lines 50-51), then calls and
    awaits [engine.run_graph] (line 53): it starts a run coroutine, and
    when that coroutine finishes it formats the response (lines 54-60)
    or lets the exception escape.  [app_step] is one step of the
    application: a [create_graph] call, the startup hook, the start of a
    [POST /graph/run], or one step of a run in flight.  Every [app_step]
    is a [cstep] of [Concurrency] whose registrations are graphs of the
    builder ([app_builds]), so the invariants proved there hold of the
    application, and [get_run_state] can be called between any two
    steps. *)

From stdpp Require Import base gmap strings list relations.
From Stdlib Require Import String.
From S2P Require Import Prelude PyStr PyDict Registry Tools Node Engine Semantics Concurrency Api.

Open Scope engine_scope.

Section ApiConc.
Context {V : Type}.
Context (build : ToolRegistry.ToolRegistry tool -> GraphDefinition V tool).
Implicit Types (c : Conc V tool (ToolRegistry.ToolRegistry tool)).

(** The graphs the handlers register: the builder's, built on whatever
    registry it is handed. *)
Definition app_builds (g : GraphDefinition V tool) : Prop := exists t, g = build t.

(** [POST /graph/run] up to its first suspension: the [has_graph] test
    (lines 50-51), then [engine.run_graph] (line 53) up to its loop,
    which raises the [KeyError] of line 65 when the graph is gone.  The
    response is [None] while the run is in flight. *)
Definition run_endpoint_start (rid : string) (payload : GraphRunRequest V) c
    : Conc V tool (ToolRegistry.ToolRegistry tool) * option (HttpResponse (GraphRunResult V)) :=
  let gid := run_req_graph_id payload in
  if negb (has_graph gid (c_engine c)) then
    (c, Some (HTTPException 404 ("Graph '" +:+ gid +:+ "' is not registered.")))
  else
    match graphs (c_engine c) !! gid with
    | None => (c, Some (InternalError (graph_not_registered gid)))
    | Some graph =>
        (mkConc (spawn_engine rid gid (Some (initial_state payload)) (c_engine c))
           (<[rid := (graph, TLoop (Some (start_node graph)))]> (c_threads c)), None)
    end.

(** The rest of [POST /graph/run] once the awaited run has finished
    (lines 53-60): the response built from the run, or the escaping
    exception (a 500). *)
Definition run_endpoint_finish (ph : ThreadPhase V tool) (run : GraphRun V)
    : option (HttpResponse (GraphRunResult V)) :=
  match ph with
  | TReturned =>
      Some (Response (mkGraphRunResult (Engine.run_id run) (graph_id run) (state run)
                        (logs run) (status_str (status run))))
  | TRaised e => Some (InternalError e)
  | _ => None
  end.

(** One step of the application's event loop ([run_id] a fresh uuid). *)
Inductive app_step : Conc V tool (ToolRegistry.ToolRegistry tool) -> Conc V tool (ToolRegistry.ToolRegistry tool) -> Prop :=
| app_create payload c :
    app_step c (mkConc (create_graph build payload (c_engine c)).1 (c_threads c))
| app_startup c :
    app_step c (mkConc (ensure_default_graph build (c_engine c)) (c_threads c))
| app_run_start rid payload c c' :
    runs (c_engine c) !! rid = None -> run_endpoint_start rid payload c = (c', None) ->
    app_step c c'
| app_resume rid c c' :
    conc_exec (Resume rid) c = Some c' -> app_step c c'.
End ApiConc.

(** ** Every handler step is an interleaving step *)

Section AppSteps.
Context {V : Type}.
Context (build : ToolRegistry.ToolRegistry tool -> GraphDefinition V tool).
Implicit Types (c : Conc V tool (ToolRegistry.ToolRegistry tool)).

Lemma register_build_cstep gid t (e : App (V:=V)) th :
  cstep (app_builds build) (mkConc e th) (mkConc (register_graph gid (build t) e).1 th).
Proof. apply cs_register. by exists t. Qed.

(** A handler either leaves the application as it is (a 400, a graph
    already there) or takes one [cstep]. *)
Lemma app_step_cstep c c' : app_step build c c' -> c' = c \/ cstep (app_builds build) c c'.
Proof.
  intros Hs. destruct Hs as [payload [e th]|[e th]|rid payload [e th] c' Hfresh Hstart|rid c c' Hr]; simpl.
  - unfold create_graph. destruct (WORKFLOW_BUILDERS build !! workflow payload) as [b|] eqn:Hb; [|by left].
    unfold WORKFLOW_BUILDERS in Hb. apply lookup_singleton_Some in Hb as [_ <-]. right. apply register_build_cstep.
  - unfold ensure_default_graph. destruct (has_graph _ e); [by left|]. right. apply register_build_cstep.
  - right. unfold run_endpoint_start in Hstart. simpl in Hstart.
    destruct (negb _); [done|]. destruct (graphs e !! _) as [graph|] eqn:Hg; [|done].
    injection Hstart as <-. by apply cs_spawn.
  - right. by eapply conc_exec_cstep.
Qed.

Lemma rtc_app_step c1 c2 : rtc (app_step build) c1 c2 -> rtc (cstep (app_builds build)) c1 c2.
Proof.
  induction 1 as [|a b c Hab _ IH]; [done|].
  destruct (app_step_cstep _ _ Hab) as [->|Hs]; [done|by eapply rtc_l].
Qed.

Lemma conc_run_resume_rtc rids c c' :
  conc_run (map Resume rids) c = Some c' -> rtc (app_step build) c c'.
Proof.
  revert c. induction rids as [|rid rids IH]; intros c; cbn [map conc_run]; [by intros [= ->]|].
  destruct (conc_exec (Resume rid) c) as [c1|] eqn:He; [|done].
  intros Hr. eapply rtc_l; [by apply app_resume with rid|exact (IH _ Hr)].
Qed.
End AppSteps.

(** ** A returned run has no current node *)

Section Cleared.
Context {V F R : Type} `{!ToolFacade R F}.
Context (builds : GraphDefinition V F -> Prop).

Lemma tstep_returned_current graph ph (run : GraphRun V) (tools : R) run' tools' :
  tstep graph (ph, run, tools) = Some (TReturned, run', tools') -> current_node run' = None.
Proof.
  destruct ph as [current|p| |]; simpl; try done.
  - destruct (loop_guard current) as [cur|]; [destruct (nodes graph !! cur)|]; by intros [= <-].
  - destruct p; simpl; try destruct (facade_get _ tools); done.
Qed.

(** Every coroutine that returned left its record with no current node
    (line 96). *)
Definition returned_cleared (c : Conc V F R) : Prop :=
  forall rid graph run, c_threads c !! rid = Some (graph, TReturned) ->
    runs (c_engine c) !! rid = Some run -> current_node run = None.

Lemma cstep_returned_cleared c c' : returned_cleared c -> cstep builds c c' -> returned_cleared c'.
Proof.
  intros Hc Hs rid' graph' run'.
  destruct Hs as [rid gid init graph e th Hg Hr|gid graph e th _|rid graph ph run ph1 run1 tools1 e th Ht Hr Hs];
    simpl; [| apply Hc |].
  - destruct (decide (rid' = rid)) as [->|Hne]; [by rewrite lookup_insert_eq|].
    rewrite !lookup_insert_ne by done. apply Hc.
  - destruct (decide (rid' = rid)) as [->|Hne].
    + rewrite !lookup_insert_eq. intros Ht1 Hr1. injection Ht1 as _ Hph. injection Hr1 as <-. subst ph1. by eapply tstep_returned_current.
    + rewrite !lookup_insert_ne by done. apply Hc.
Qed.

Lemma returned_cleared_reach (e : WorkflowEngine V F R) c :
  rtc (cstep builds) (mkConc e ∅) c -> returned_cleared c.
Proof. apply rtc_invariant; [apply cstep_returned_cleared|by intros ???]. Qed.
End Cleared.

(** ** Reading a run while it is in flight *)

(** The run's coroutine has not finished. *)
Definition in_flight {V F} (ph : ThreadPhase V F) : bool :=
  match ph with TLoop _ | TNode _ => true | _ => false end.

Section ApiConcProps.
Context {V : Type}.
Context (build : ToolRegistry.ToolRegistry tool -> GraphDefinition V tool).

(** C27. Reading a run while [POST /graph/run] is in flight (spec 4.4),
    whatever other requests interleave: [GET /graph/state/{run_id}]
    answers 200 with status ["running"], and when the [POST] answers,
    the logs it returns extend those the [GET] saw, its status is
    ["completed"], and a [GET] at that point returns the same logs and
    state with no current node. *)
Theorem state_endpoint_during_run (e : App (V:=V)) c1 c2 rid graph ph1 ph2 run2 :
  rtc (app_step build) (mkConc e ∅) c1 -> c_threads c1 !! rid = Some (graph, ph1) ->
  in_flight ph1 = true ->
  rtc (app_step build) c1 c2 -> c_threads c2 !! rid = Some (graph, ph2) ->
  get_run rid (c_engine c2) = Some run2 ->
  exists s1, get_run_state rid (c_engine c1) = Response s1 /\ state_status s1 = "running"%string /\
    forall res, run_endpoint_finish ph2 run2 = Some (Response res) ->
      state_logs s1 `prefix_of` result_logs res /\ result_status res = "completed"%string /\
      get_run_state rid (c_engine c2) =
        Response (mkGraphStateResponse rid (result_graph_id res) (final_state res) (result_logs res)
                    "completed" None).
Proof.
  intros H1%rtc_app_step Hth1 Hfl H12%rtc_app_step Hth2 Hrun2.
  pose proof (conc_inv_reach _ _ _ H1) as Hinv1.
  assert (H2 : rtc (cstep (app_builds build)) (mkConc e ∅) c2) by (etransitivity; eauto).
  destruct (Hinv1 rid _ Hth1) as (run1 & Hrun1 & Hid1 & Hst1).
  destruct (rtc_thread_keep _ _ _ _ _ _ _ Hinv1 H12 Hth1 Hrun1) as (ph' & run' & Hth' & Hrun' & Hid' & Hpre).
  unfold get_run in Hrun2. rewrite Hth2 in Hth'. assert (run' = run2) as -> by congruence.
  injection Hth' as <-.
  eexists. unfold get_run_state, get_run. rewrite Hrun1. split; [done|]. simpl in Hst1 |- *.
  split; [by destruct ph1; simpl in *; rewrite Hst1|].
  intros res Hres. destruct ph2; simpl in Hres; try done. injection Hres as <-. simpl.
  destruct (conc_inv_reach _ _ _ H2 rid _ Hth2) as (run3 & Hrun3 & _ & Hst3).
  assert (run3 = run2) as -> by congruence. simpl in Hst3.
  pose proof (returned_cleared_reach _ _ _ H2 rid _ _ Hth2 Hrun2) as Hcur.
  rewrite Hrun2, Hst3, Hcur, Hid', Hid1. by split_and!.
Qed.
End ApiConcProps.

(** ** The review workflow, read while it runs *)

Module ApiConcDemo.
Import ApiDemo.

Definition c0 : Conc string tool (ToolRegistry.ToolRegistry tool) := mkConc app_review ∅.
Definition run_req : GraphRunRequest string := mkGraphRunRequest "code_review" ∅.

(** After [POST /graph/run] has started and its node has looked its tool up. *)
Definition c_started := (run_endpoint_start "r1" run_req c0).1.
Definition c_mid := match conc_run [Resume "r1"; Resume "r1"] c_started with Some c => c | None => c_started end.
(** After the run has completed. *)
Definition c_done := match conc_run [Resume "r1"; Resume "r1"; Resume "r1"] c_mid with Some c => c | None => c_mid end.

Definition graph_review : GraphDefinition string tool := build_review (tool_registry app_review).
Definition run_done : GraphRun string :=
  mkGraphRun "r1" "code_review" ∅
    ["Executing node 'review'"; "ran detect_smells"; "done"; "Run completed."] Completed None.
End ApiConcDemo.

Section ApiConcWitness.
Import ApiDemo ApiConcDemo.

(** The demo registry holds closures: the proofs below evaluate only
    first-order results, so no closure body is normalised. *)
Lemma conc_run_default evs (c : Conc string tool (ToolRegistry.ToolRegistry tool)) :
  is_Some (conc_run evs c) -> conc_run evs c = Some (match conc_run evs c with Some c' => c' | None => c end).
Proof. by intros [c' ->]. Qed.

Lemma c_mid_reach : rtc (app_step build_review) c0 c_mid.
Proof.
  eapply rtc_l.
  - apply (app_run_start _ "r1" run_req c0 c_started); [vm_compute; reflexivity|].
    rewrite (surjective_pairing (run_endpoint_start "r1" run_req c0)). f_equal; vm_compute; reflexivity.
  - apply (conc_run_resume_rtc _ ["r1"; "r1"]), conc_run_default, is_Some_alt. vm_compute. exact I.
Qed.

Lemma c_done_step : rtc (app_step build_review) c_mid c_done.
Proof.
  apply (conc_run_resume_rtc _ ["r1"; "r1"; "r1"]), conc_run_default, is_Some_alt. vm_compute. exact I.
Qed.

Lemma state_endpoint_during_run_witness :
  exists s1, get_run_state "r1" (c_engine c_mid) = Response s1 /\ state_status s1 = "running"%string /\
    forall res, run_endpoint_finish TReturned run_done = Some (Response res) ->
      state_logs s1 `prefix_of` result_logs res /\ result_status res = "completed"%string /\
      get_run_state "r1" (c_engine c_done) =
        Response (mkGraphStateResponse "r1" (result_graph_id res) (final_state res) (result_logs res)
                    "completed" None).
Proof.
  apply (state_endpoint_during_run build_review app_review c_mid c_done "r1" graph_review
    (TNode (NLog "ran detect_smells" (NReturn (mkNodeResult None (Some "done"%string))))) TReturned run_done
    c_mid_reach); [vm_compute; reflexivity | reflexivity | exact c_done_step | vm_compute; reflexivity
    | vm_compute; reflexivity].
Defined.
End ApiConcWitness.
